(** * psmc_check: seeding and driving the ACIS PSMC thermal model

    A shallow embedding of [psmc_check/psmc_check.py]: the model driver
    [calc_model], the methods of [PSMCModelCheck] ([set_initial_state],
    [calc_model_wrapper], [write_states]) and the entry point [main].

    Temperatures and times are Python floats, modelled by binary64 primitive
    floats; a column of single-precision telemetry keeps its values in the
    same carrier and its arithmetic is binary32.  Dictionaries are finite
    maps.  Exceptions are values of [exn];
    code that can raise, log, read a file or run the model engine lives in
    the monad [M], which threads the list of events performed so far.  What
    the program calls in other packages (the xija engine, the commanded
    states database, the readers, the base class of the check) is a variable
    of the section that holds the program. *)

From Stdlib Require Import Floats ZArith QArith Qcanon.
From stdpp Require Import gmap strings list.

#[local] Set Warnings "-inexact-float".

Local Open Scope string_scope.
Local Open Scope list_scope.
Local Open Scope stdpp_scope.

(** ** Python values and exceptions *)

(** Cells of a state dictionary: numbers (Python [float], and the integer
    counts, which arithmetic promotes to [float]) and strings. *)
Inductive value :=
  | VFloat (x : float)
  | VStr (s : string).

(** Instances of [Exception] that this code can meet.  The system-exiting
    [SystemExit], which derives from [BaseException] only and which
    [except Exception] therefore lets through, is the separate outcome
    [SysExit] of [result]. *)
Inductive exn :=
  | IndexError (msg : string)
  | KeyError (key : string)
  | ValueError (msg : string)
  | TypeError (msg : string)
  | IOError (path : string)
  | InconsistentTableError (msg : string)
  | NoCommandedStatesError (msg : string)
  | RuntimeError (msg : string).

(** [str(e)] *)
Definition exn_str (e : exn) : string :=
  match e with
  | IndexError msg | ValueError msg | TypeError msg
  | InconsistentTableError msg
  | NoCommandedStatesError msg | RuntimeError msg => msg
  | KeyError key => "'" +:+ key +:+ "'"
  | IOError path => "[Errno 2] No such file or directory: '" +:+ path +:+ "'"
  end.

Inductive result (A : Type) :=
  | Ok (a : A)
  | Raise (e : exn)
  | SysExit (code : Z).
Arguments Ok {A} a.
Arguments Raise {A} e.
Arguments SysExit {A} code.

(** ** Events and the monad of effects *)

Inductive event :=
  | EvLogInfo (msg : string)
  | EvGetState0 (date : float) (datepar : string) (date_margin : Z)
  | EvReadRdb (path : string)
  | EvXijaCalc (name : string)
  | EvPrint (msg : string).

Definition M (A : Type) : Type := list event → list event * result A.

Definition ret {A} (a : A) : M A := λ tr, (tr, Ok a).
Definition raise {A} (e : exn) : M A := λ tr, (tr, Raise e).
Definition sys_exit {A} (code : Z) : M A := λ tr, (tr, SysExit code).
Definition lift {A} (r : result A) : M A := λ tr, (tr, r).
Definition emit (e : event) : M unit := λ tr, (tr ++ [e], Ok tt).
Definition bind {A B} (m : M A) (k : A → M B) : M B :=
  λ tr, match m tr with
        | (tr', Ok a) => k a tr'
        | (tr', Raise e) => (tr', Raise e)
        | (tr', SysExit c) => (tr', SysExit c)
        end.

Notation "'do' x <- m ; k" := (bind m (fun x => k))
  (at level 10, x name, m at level 100, k at level 200, only parsing).
Notation "'exec' m ; k" := (bind m (fun _ => k))
  (at level 10, m at level 100, k at level 200, only parsing).

(** [try: body  except Exception as e: handler e] *)
Definition try_except {A} (body : M A) (handler : exn → M A) : M A :=
  λ tr, match body tr with
        | (tr', Raise e) => handler e tr'
        | r => r
        end.

(** [for x in xs: acc = body acc x] *)
Fixpoint for_each {A S} (xs : list A) (body : S → A → M S) (acc : S) : M S :=
  match xs with
  | [] => ret acc
  | x :: xs' => do acc' <- body acc x; for_each xs' body acc'
  end.

(** Running a computation from an empty history. *)
Definition events {A} (m : M A) : list event := fst (m []).
Definition outcome {A} (m : M A) : result A := snd (m []).

(** The exit status of the interpreter when the entry point ends in [r]:
    0 on a normal return, the argument of [sys.exit], and 1 after the
    traceback of an uncaught exception. *)
Definition exit_status {A} (r : result A) : Z :=
  match r with
  | Ok _ => 0
  | SysExit c => c
  | Raise _ => 1
  end.

(** ** Dictionaries, arrays and tables *)

(** [d[key]] *)
Definition getitem (d : gmap string value) (key : string) : result value :=
  match d !! key with
  | Some v => Ok v
  | None => Raise (KeyError key)
  end.

(** [v - c] and [v + c] for a number [c]; a string operand raises. *)
Definition value_sub (v : value) (c : float) : result float :=
  match v with
  | VFloat x => Ok (PrimFloat.sub x c)
  | VStr _ => Raise (TypeError "unsupported operand type(s) for -")
  end.

Definition value_add (v : value) (c : float) : result float :=
  match v with
  | VFloat x => Ok (PrimFloat.add x c)
  | VStr _ => Raise (TypeError "cannot concatenate 'str' and 'int' objects")
  end.

(** [a[-k]] on an array, for [k] at least 1 *)
Definition index_neg {A} (a : list A) (k : nat) : result A :=
  if bool_decide (k ≤ length a)%nat
  then match a !! (length a - k)%nat with
       | Some x => Ok x
       | None => Raise (IndexError "index out of bounds")
       end
  else Raise (IndexError "index out of bounds").

(** Elementwise comparisons of an array with a scalar, and [&]. *)
Definition array_ge (a : list float) (c : float) : list bool :=
  map (λ x, PrimFloat.leb c x) a.
Definition array_le (a : list float) (c : float) : list bool :=
  map (λ x, PrimFloat.leb x c) a.
Definition array_and (m1 m2 : list bool) : list bool :=
  zip_with andb m1 m2.

(** [a[mask]]: the entries of [a] where the boolean mask holds *)
Fixpoint mask_select {A} (a : list A) (mask : list bool) : list A :=
  match a, mask with
  | x :: a', b :: mask' =>
      if b then x :: mask_select a' mask' else mask_select a' mask'
  | _, _ => []
  end.

Definition float_of_nat (n : nat) : float :=
  PrimFloat.of_uint63 (Uint63.of_Z (Z.of_nat n)).

(** *** [np.mean]

    [np.mean(a)] of a one-dimensional float array is [np.add.reduce(a)]
    divided by the number of entries, in the arithmetic of the dtype of the
    array (numpy 1.x).  The reduction starts from the identity 0 and adds
    the pairwise sum of the array: fewer than 8 entries are added one by
    one; up to 128 entries are added into 8 accumulators that are then
    combined, the entries left over being added one by one; a longer array
    is split in two at a multiple of 8 near its middle.  The algorithm is
    written once, for any addition; [fuel] bounds the depth of the
    splitting, and the length of the array is always enough
    ([pairwise_sum_fuel]). *)

Section AddReduce.
Context {A : Type} (add : A → A → A) (zero : A).

(** [for (i = 0; i < n; i++) res += a[i]] *)
Definition sum_loop (res : A) (a : list A) : A := fold_left add a res.

(** The loop over whole groups of 8 entries, then the combination of the
    accumulators and the entries left over. *)
Fixpoint unrolled_loop (r0 r1 r2 r3 r4 r5 r6 r7 : A) (a : list A) : A :=
  match a with
  | a0 :: a1 :: a2 :: a3 :: a4 :: a5 :: a6 :: a7 :: rest =>
      unrolled_loop (add r0 a0) (add r1 a1) (add r2 a2) (add r3 a3)
        (add r4 a4) (add r5 a5) (add r6 a6) (add r7 a7) rest
  | _ =>
      sum_loop (add (add (add r0 r1) (add r2 r3))
                    (add (add r4 r5) (add r6 r7))) a
  end.

(** The sum of an array of at most 128 entries. *)
Definition block_sum (a : list A) : A :=
  match a with
  | a0 :: a1 :: a2 :: a3 :: a4 :: a5 :: a6 :: a7 :: rest =>
      unrolled_loop a0 a1 a2 a3 a4 a5 a6 a7 rest
  | _ => sum_loop zero a
  end.

Fixpoint pairwise_sum (fuel : nat) (a : list A) : A :=
  match fuel with
  | S fuel' =>
      if (128 <? length a)%nat
      then add (pairwise_sum fuel'
                  (take (length a / 2 - (length a / 2) mod 8)%nat a))
               (pairwise_sum fuel'
                  (drop (length a / 2 - (length a / 2) mod 8)%nat a))
      else block_sum a
  | O => block_sum a
  end.

(** [np.add.reduce(a)] *)
Definition add_reduce (a : list A) : A :=
  add zero (pairwise_sum (length a) a).

End AddReduce.

(** The arithmetic that [np.mean] uses: the zero, the addition, and the
    division of the sum by the number of entries. *)
Record arith (A : Type) := {
  a_zero : A;
  a_add : A → A → A;
  a_div : A → nat → A
}.
Arguments a_zero {A} _.
Arguments a_add {A} _ _ _.
Arguments a_div {A} _ _ _.

Definition np_mean_gen {A} (ar : arith A) (a : list A) : A :=
  a_div ar (add_reduce (a_add ar) (a_zero ar) a) (length a).

(** The dtypes of float columns. *)
Inductive dtype := float32 | float64.

(** The cast of a double to single precision, and the addition of single
    precision, both from the specification of IEEE 754 arithmetic of the
    standard library at precision 24. *)
Definition round_float32 (x : float) : float :=
  match Prim2SF x with
  | S754_finite s m e => SF2Prim (binary_round 24 128 s m e)
  | _ => x
  end.

Definition add_float32 (x y : float) : float :=
  SF2Prim (SFadd 24 128 (Prim2SF x) (Prim2SF y)).

(** The sum of a float64 array is divided in double precision; the sum of a
    float32 array is a float32 scalar, its quotient by the count is taken
    in double precision and cast back to float32. *)
Definition float_arith (d : dtype) : arith float :=
  match d with
  | float64 =>
      {| a_zero := 0%float; a_add := PrimFloat.add;
         a_div := λ s n, PrimFloat.div s (float_of_nat n) |}
  | float32 =>
      {| a_zero := 0%float; a_add := add_float32;
         a_div := λ s n, round_float32 (PrimFloat.div s (float_of_nat n)) |}
  end.

(** [np.mean(a)] for an array [a] of dtype [d]; on an empty array this is
    0/0, NaN (numpy warns and returns it). *)
Definition np_mean (d : dtype) (a : list float) : float :=
  np_mean_gen (float_arith d) a.



(** A telemetry table: one row per sample, a row gives the value of each
    field ([date] in seconds, a float64 column, and the MSIDs); the dtype of
    the columns is kept beside the rows. *)
Definition tlm_row : Type := string → float.

(** [tlm[field]] *)
Definition tlm_col (tlm : list tlm_row) (field : string) : list float :=
  map (λ row, row field) tlm.

(** A states table: named columns, in the order of [dtype.names]. *)
Definition table : Type := list (string * list float).

(** [states[name]] *)
Fixpoint getcol (states : table) (name : string) : result (list float) :=
  match states with
  | [] => Raise (ValueError ("no field of name " +:+ name))
  | (n, c) :: rest => if String.eqb n name then Ok c else getcol rest name
  end.

(** What [set_data] accepts: [None], a scalar, or an array. *)
Inductive data :=
  | DNone
  | DBool (b : bool)
  | DFloat (x : float)
  | DStr (s : string)
  | DArray (xs : list float)
  | DBoolArray (bs : list bool)
  | DArray2 (rows : list (list float)).

Definition data_of_value (v : value) : data :=
  match v with
  | VFloat x => DFloat x
  | VStr s => DStr s
  end.

(** A row of the heater-command history file. *)
Record htrb_row := { time : string; dahtbon : Z }.

(** What [ascii.read] makes of a file that exists: a table, with the names
    of its columns and its rows (the cells of the columns [time] and
    [dahtbon] where the table has them), or no table at all when the text
    is not in rdb format (an empty file is not). *)
Record rdb_table := { rdb_colnames : list string; rdb_rows : list htrb_row }.

Inductive rdb_file :=
  | RdbMalformed (msg : string)
  | RdbTable (table : rdb_table).

(** [htrb[name]] *)
Definition rdb_col {A} (htrb : rdb_table) (name : string)
    (cell : htrb_row → A) : result (list A) :=
  if existsb (String.eqb name) (rdb_colnames htrb)
  then Ok (map cell (rdb_rows htrb))
  else Raise (KeyError name).

(** [os.path.join(a, b)] for a relative [b] *)
Definition path_join (a b : string) : string :=
  if String.eqb a "" then b
  else if String.eqb (String.substring (String.length a - 1)%nat 1 a) "/"
  then a +:+ b
  else a +:+ "/" +:+ b.

(** Command-line options: what [get_options] returns, and the description
    of an extra option handed to it. *)
Record options := { traceback : bool; outdir : string; dh_heater_opt : Z }.
Record opt_spec := { opt_type : string; opt_default : Z; opt_help : string }.

(** ** The program *)

Section PSMC.

(** *** What the program takes from its collaborators *)

(** The thermal-model specification, and what the engine computes from a
    configured model ([model.make(); model.calc()]). *)
Variable ModelSpec : Type.
Variable Prediction : Type.

(** The engine: the values of a node on the time grid of the model
    ([node.dvals], which the engine takes from telemetry when the node has
    no data), and the integration itself. *)
Variable xija_dvals :
  ModelSpec → float → float → string → data * data → list float.
Variable xija_calc :
  string → ModelSpec → float → float → gmap string (data * data) → Prediction.

(** [Chandra.cmd_states.get_state0(DateTime(secs).date, db, datepar,
    date_margin)], the commanded-states database being [DB]. *)
Variable DB : Type.
Variable get_state0 : float → DB → string → Z → result (gmap string value).

(** The dtype of the columns of the telemetry table. *)
Variable tlm_dtype : string → dtype.

Variable calc_off_nom_rolls : table → list float.
Variable date2secs : string → float.

(** The files [ascii.read] can find, with what it makes of each. *)
Variable fs : gmap string rdb_file.

(** *** The model object *)

(** [comp] holds the data and the data times that [set_data] gave to the
    nodes of the model.  The component table of the psmc model has every
    node that [calc_model] names. *)
Record XijaModel := {
  model_name : string;
  model_start : float;
  model_stop : float;
  model_spec_of : ModelSpec;
  comp : gmap string (data * data);
  prediction : option Prediction
}.

Definition new_XijaModel (name : string) (start stop : float)
    (model_spec : ModelSpec) : XijaModel :=
  {| model_name := name; model_start := start; model_stop := stop;
     model_spec_of := model_spec; comp := ∅; prediction := None |}.

(** [model.comp[name].set_data(d, times)] *)
Definition set_data (model : XijaModel) (name : string) (d times : data)
    : XijaModel :=
  {| model_name := model_name model; model_start := model_start model;
     model_stop := model_stop model; model_spec_of := model_spec_of model;
     comp := <[name := (d, times)]> (comp model);
     prediction := prediction model |}.

(** [model.comp[name].dvals] *)
Definition dvals (model : XijaModel) (name : string) : list float :=
  xija_dvals (model_spec_of model) (model_start model) (model_stop model)
    name (default (DNone, DNone) (comp model !! name)).

(** [model.make(); model.calc()] *)
Definition make_calc (model : XijaModel) : M XijaModel :=
  exec emit (EvXijaCalc (model_name model));
  ret {| model_name := model_name model; model_start := model_start model;
         model_stop := model_stop model;
         model_spec_of := model_spec_of model; comp := comp model;
         prediction :=
           Some (xija_calc (model_name model) (model_spec_of model)
                   (model_start model) (model_stop model) (comp model)) |}.

(** *** [calc_model] *)

Definition calc_model (model_spec : ModelSpec) (states : table)
    (start stop : float)
    (T_psmc T_psmc_times T_pin1at T_pin1at_times : data)
    (dh_heater dh_heater_times : data) : M XijaModel :=
  let model := new_XijaModel "psmc" start stop model_spec in
  do tstart <- lift (getcol states "tstart");
  do tstop <- lift (getcol states "tstop");
  let times := DArray2 [tstart; tstop] in
  do simpos <- lift (getcol states "simpos");
  let model := set_data model "sim_z" (DArray simpos) times in
  let model := set_data model "1pdeaat" T_psmc T_psmc_times in
  let T_pin1at :=
    match T_pin1at with
    | DNone =>
        DArray (map (λ v, PrimFloat.sub v 10%float) (dvals model "1pdeaat"))
    | _ => T_pin1at
    end in
  let model := set_data model "pin1at" T_pin1at T_pin1at_times in
  let model :=
    set_data model "roll" (DArray (calc_off_nom_rolls states)) times in
  let model := set_data model "eclipse" (DBool false) DNone in
  do model <-
    for_each ["ccd_count"; "fep_count"; "vid_board"; "clocking"; "pitch"]
      (λ model name,
         do col <- lift (getcol states name);
         ret (set_data model name (DArray col) times))
      model;
  let model := set_data model "dh_heater" dh_heater dh_heater_times in
  make_calc model.

(** *** [PSMCModelCheck] *)

(** The attributes of the check object that the methods read; the
    base-class constructor sets them. *)
Record ACISThermalCheck := {
  msid : string;
  name : string;
  t_msid : string;
  self_calc_model :
    ModelSpec → table → float → float →
    data → data → data → data → data → data → M XijaModel
}.

Definition log_info (msg : string) : M unit := emit (EvLogInfo msg).

(** [ascii.read(path, format='rdb')] *)
Definition ascii_read (path : string) : M rdb_table :=
  exec emit (EvReadRdb path);
  match fs !! path with
  | Some (RdbTable htrb) => ret htrb
  | Some (RdbMalformed msg) => raise (InconsistentTableError msg)
  | None => raise (IOError path)
  end.

Definition set_initial_state (self : ACISThermalCheck)
    (tlm : list tlm_row) (db : DB) : M (gmap string value) :=
  do date5 <- lift (index_neg (tlm_col tlm "date") 5);
  exec emit (EvGetState0 date5 "datestart" (-100));
  do state0 <- lift (get_state0 date5 db "datestart" (-100));
  do t1 <- lift (getitem state0 "tstart");
  do lo <- lift (value_sub t1 700%float);
  do t2 <- lift (getitem state0 "tstart");
  do hi <- lift (value_add t2 700%float);
  let ok := array_and (array_ge (tlm_col tlm "date") lo)
                      (array_le (tlm_col tlm "date") hi) in
  ret (<[t_msid self :=
           VFloat (np_mean (tlm_dtype (msid self))
                     (mask_select (tlm_col tlm (msid self)) ok))]>
         state0).

Definition calc_model_wrapper (self : ACISThermalCheck) (oflsdir : string)
    (model_spec : ModelSpec) (states : table) (tstart tstop : float)
    (state0 : option (gmap string value)) : M XijaModel :=
  do seeds <-
    match state0 with
    | None => ret (DNone, DNone, DNone, DNone)
    | Some state0 =>
        do start_msid <- lift (getitem state0 (t_msid self));
        do v <- lift (getitem state0 (t_msid self));
        do start_pin <- lift (value_sub v 10%float);
        let htrbfn := path_join oflsdir "dahtbon_history.rdb" in
        exec log_info
               ("Reading file of dahtrb commands from file " +:+ htrbfn);
        do htrb <- ascii_read htrbfn;
        (* date2secs(htrb['time']) *)
        do times <- lift (rdb_col htrb "time" time);
        let dh_heater_times := DArray (map date2secs times) in
        (* htrb['dahtbon'].astype(bool) *)
        do flags <- lift (rdb_col htrb "dahtbon" dahtbon);
        let dh_heater := DBoolArray (map (λ z, negb (z =? 0)%Z) flags) in
        ret (data_of_value start_msid, DFloat start_pin,
             dh_heater, dh_heater_times)
    end;
  let '(start_msid, start_pin, dh_heater, dh_heater_times) := seeds in
  self_calc_model self model_spec states tstart tstop
    start_msid DNone start_pin DNone dh_heater dh_heater_times.

(** Modelled from the spec: the base-class [write_states] of
    acis_thermal_check, which is not part of this repository.  It exports
    the states table for archival without the columns named in
    [remove_cols]; the value is the exported table. *)
Definition ACISThermalCheck_write_states (opt : options) (states : table)
    (remove_cols : list string) : table :=
  List.filter (λ col, negb (existsb (String.eqb (fst col)) remove_cols))
              states.

Definition write_states (self : ACISThermalCheck) (opt : options)
    (states : table) : table :=
  ACISThermalCheck_write_states opt states ["T_pin1at"].

(** [psmc_check = PSMCModelCheck("1pdeaat", "psmc", ..., calc_model, ...)];
    [T_msid] is the key under which the base class keeps the temperature
    of the tracked sensor. *)
Variable T_msid : string.

Definition psmc_check : ACISThermalCheck :=
  {| msid := "1pdeaat"; name := "psmc"; t_msid := T_msid;
     self_calc_model := calc_model |}.

(** *** [main] *)

(** The directory of the module, [get_options], and the [driver] method
    of the base class. *)
Variable model_path : string.
Variable get_options :
  string → string → string → list (string * opt_spec) → M options.
Variable driver : ACISThermalCheck → options → M unit.

Definition print (msg : string) : M unit := emit (EvPrint msg).

Definition main : M unit :=
  let dhh_opt :=
    {| opt_type := "int"; opt_default := 0;
       opt_help := "Starting Detector Housing Heater state" |} in
  do args <- get_options "1PDEAAT" "psmc" model_path [("dh_heater", dhh_opt)];
  try_except (driver psmc_check args)
    (λ msg,
       if traceback args then raise msg
       else exec print ("ERROR: " +:+ exn_str msg); sys_exit 1).

End PSMC.

Arguments comp {ModelSpec Prediction} _.
Arguments prediction {ModelSpec Prediction} _.
Arguments t_msid {ModelSpec Prediction} _.
Arguments msid {ModelSpec Prediction} _.
Arguments self_calc_model {ModelSpec Prediction} _.
Arguments calc_model {ModelSpec Prediction} _ _ _.
Arguments psmc_check {ModelSpec Prediction} _ _ _ _.
Arguments set_initial_state {ModelSpec Prediction DB} _ _ _ _ _.
Arguments calc_model_wrapper {ModelSpec Prediction} _ _ _ _ _ _ _ _ _.
Arguments write_states {ModelSpec Prediction} _ _ _.
Arguments main {ModelSpec Prediction} _ _ _ _ _ _ _.

(** ** Vocabulary of the properties *)

(** A computation whose effects and result do not depend on what happened
    before it: it only appends its own events to the history. *)
Definition oblivious {A} (m : M A) : Prop :=
  ∀ tr, m tr = (tr ++ events m, outcome m).

Definition is_ok {A} (r : result A) : bool :=
  match r with Ok _ => true | _ => false end.

(** The columns of the states table that [calc_model] reads. *)
Definition calc_model_columns : list string :=
  ["tstart"; "tstop"; "simpos";
   "ccd_count"; "fep_count"; "vid_board"; "clocking"; "pitch"].

Definition has_columns (states : table) (names : list string) : bool :=
  forallb (λ n, is_ok (getcol states n)) names.

(** A timestamp within 700 seconds of the start time [t0]. *)
Definition within_700s (t0 d : float) : bool :=
  PrimFloat.leb (PrimFloat.sub t0 700%float) d
  && PrimFloat.leb d (PrimFloat.add t0 700%float).

(** The heater-command history file of a planning-products directory, and
    the exception of the reader when that file is absent, which the
    specification calls MissingHeaterHistoryError. *)
Definition heater_history_file (oflsdir : string) : string :=
  path_join oflsdir "dahtbon_history.rdb".

Definition MissingHeaterHistoryError (oflsdir : string) : exn :=
  IOError (heater_history_file oflsdir).

(** A table of the heater history with the two columns that are read. *)
Definition has_heater_columns (htrb : rdb_table) : bool :=
  existsb (String.eqb "time") (rdb_colnames htrb)
  && existsb (String.eqb "dahtbon") (rdb_colnames htrb).

Definition is_xija_calc (e : event) : bool :=
  match e with EvXijaCalc _ => true | _ => false end.

(** ** A concrete setting

    A two-interval timeline, a few telemetry samples and simple stand-ins
    for the collaborators, on which the properties below are run. *)

Definition mk_row (d t : float) : tlm_row :=
  λ field, if String.eqb field "date" then d else t.

(** Telemetry sampled every 32.75 seconds. *)
Definition ex_tlm : list tlm_row :=
  [mk_row 10000 40; mk_row 10032.75 41; mk_row 10065.5 42;
   mk_row 10098.25 43; mk_row 10131 44; mk_row 10163.75 45]%float.

Definition ex_tlm_short : list tlm_row :=
  [mk_row 10000 40; mk_row 10032.75 41; mk_row 10065.5 42]%float.

(** A state that started within the telemetry, and one that started long
    before its first sample. *)
Definition ex_state_recent : gmap string value :=
  {[ "tstart" := VFloat 10050%float; "pitch" := VFloat 150%float;
     "datestart" := VStr "2016:001:02:47:30.000" ]}.

Definition ex_state_old : gmap string value :=
  {[ "tstart" := VFloat 5000%float; "pitch" := VFloat 150%float;
     "datestart" := VStr "2016:001:01:23:20.000" ]}.

(** A state database that knows one state. *)
Definition ex_get_state0 (date : float) (db : option (gmap string value))
    (datepar : string) (date_margin : Z) : result (gmap string value) :=
  match db with
  | Some state => Ok state
  | None => Raise (NoCommandedStatesError "No commanded states")
  end.

Definition ex_states : table :=
  [("tstart", [0; 1000]); ("tstop", [1000; 2000]);
   ("simpos", [-50000; 75000]); ("pitch", [150; 90]);
   ("ccd_count", [6; 6]); ("fep_count", [6; 6]); ("vid_board", [1; 1]);
   ("clocking", [1; 1]); ("T_psmc", [45; 45]); ("T_pin1at", [35; 35])]%float.

Definition ex_dvals (ms : string) (start stop : float) (node : string)
    (d : data * data) : list float :=
  match fst d with
  | DFloat x => [x; x; x]
  | DArray xs => xs
  | _ => [40; 41; 42]%float
  end.

Definition ex_calc (name ms : string) (start stop : float)
    (comps : gmap string (data * data)) : list float :=
  ex_dvals ms start stop "1pdeaat" (default (DNone, DNone) (comps !! "1pdeaat")).

Definition ex_rolls (states : table) : list float := [0; 0]%float.

Definition ex_date2secs (date : string) : float := 0%float.

Definition ex_htrb : rdb_table :=
  {| rdb_colnames := ["time"; "dahtbon"];
     rdb_rows := [ {| time := "2016:001:00:00:00.000"; dahtbon := 1 |} ] |}.

Definition ex_fs : gmap string rdb_file :=
  {[ "ofls/dahtbon_history.rdb" := RdbTable ex_htrb;
     "empty/dahtbon_history.rdb" := RdbMalformed "No data lines found" ]}.

Definition ex_tlm_dtype (field : string) : dtype := float64.

Definition ex_state0 : gmap string value := {[ "T_psmc" := VFloat 45%float ]}.

Definition ex_psmc_check : ACISThermalCheck string (list float) :=
  psmc_check ex_dvals ex_calc ex_rolls "T_psmc".

Definition ex_options : options :=
  {| traceback := false; outdir := "out"; dh_heater_opt := 0 |}.

Definition ex_get_options (msid name path : string)
    (extra : list (string * opt_spec)) : M options :=
  ret ex_options.

Definition ex_driver_fails (self : ACISThermalCheck string (list float))
    (args : options) : M unit :=
  raise (RuntimeError "no telemetry").

(** ** Vocabulary of further properties *)

(** The nodes of the model that [calc_model] gives data to, and the state
    columns that its loop hands to the node of the same name. *)
Definition calc_model_nodes : list string :=
  ["sim_z"; "1pdeaat"; "pin1at"; "roll"; "eclipse";
   "ccd_count"; "fep_count"; "vid_board"; "clocking"; "pitch"; "dh_heater"].

Definition calc_model_loop_columns : list string :=
  ["ccd_count"; "fep_count"; "vid_board"; "clocking"; "pitch"].

(** The first of [names] that is not a column of the table. *)
Fixpoint first_missing (states : table) (names : list string)
    : option string :=
  match names with
  | [] => None
  | n :: rest =>
      if is_ok (getcol states n) then first_missing states rest else Some n
  end.

(** Further inputs of the concrete setting: a timeline without the pitch
    column, telemetry older than the window, a state without start time,
    and stand-ins for the option parser and the driver. *)
Definition ex_states_no_pitch : table :=
  [("tstart", [0; 1000]); ("tstop", [1000; 2000]);
   ("simpos", [-50000; 75000]);
   ("ccd_count", [6; 6]); ("fep_count", [6; 6]); ("vid_board", [1; 1]);
   ("clocking", [1; 1])]%float.

(** Eight samples with uneven readings, in double precision and as the
    single-precision column of the same readings. *)
Definition ex_tlm8 : list tlm_row :=
  [mk_row 10000 38.12; mk_row 10032.75 38.23; mk_row 10065.5 38.37;
   mk_row 10098.25 38.41; mk_row 10131 38.55; mk_row 10163.75 38.61;
   mk_row 10196.5 38.07; mk_row 10229.25 38.34]%float.

Definition ex_tlm8_float32 : list tlm_row :=
  map (λ (row : tlm_row) field,
         if String.eqb field "date" then row field
         else round_float32 (row field))
      ex_tlm8.

Definition ex_tlm_dtype32 (field : string) : dtype :=
  if String.eqb field "date" then float64 else float32.

Definition ex_tlm_older : list tlm_row :=
  [mk_row 1000 20; mk_row 1032.75 21]%float.

Definition ex_state_no_tstart : gmap string value :=
  {[ "pitch" := VFloat 150%float ]}.

Definition ex_state_bad_temp : gmap string value :=
  {[ "T_psmc" := VStr "hot" ]}.

Definition ex_get_options_fails (msid name path : string)
    (extra : list (string * opt_spec)) : M options :=
  sys_exit 2.

Definition ex_driver_exits (self : ACISThermalCheck string (list float))
    (args : options) : M unit :=
  sys_exit 3.

(** The model of a run on the concrete setting, and of a seeded run of the
    wrapper. *)
Definition ex_model : XijaModel string (list float) :=
  match calc_model ex_dvals ex_calc ex_rolls "psmc_spec.json" ex_states
          0 2000 (DFloat 45) DNone DNone DNone DNone DNone [] with
  | (_, Ok model) => model
  | _ => new_XijaModel string (list float) "psmc" 0 2000 "psmc_spec.json"
  end.

Definition ex_seeded_model : XijaModel string (list float) :=
  match calc_model_wrapper ex_date2secs ex_fs ex_psmc_check "ofls"
          "psmc_spec.json" ex_states 0 2000 (Some ex_state0) [] with
  | (_, Ok model) => model
  | _ => new_XijaModel string (list float) "psmc" 0 2000 "psmc_spec.json"
  end.

(** * Properties *)

(** ** The monad *)

Lemma oblivious_ret {A} (a : A) : oblivious (ret a).
Proof. intros tr. unfold ret, events, outcome. simpl. by rewrite app_nil_r. Qed.

Lemma oblivious_lift {A} (r : result A) : oblivious (lift r).
Proof. intros tr. unfold lift, events, outcome. simpl. by rewrite app_nil_r. Qed.

Lemma oblivious_raise {A} (e : exn) : oblivious (@raise A e).
Proof. apply (oblivious_lift (Raise e)). Qed.

Lemma oblivious_sys_exit {A} (c : Z) : oblivious (@sys_exit A c).
Proof. apply (oblivious_lift (SysExit c)). Qed.

Lemma oblivious_emit (e : event) : oblivious (emit e).
Proof. intros tr. reflexivity. Qed.

Lemma oblivious_bind {A B} (m : M A) (k : A → M B) :
  oblivious m → (∀ a, oblivious (k a)) → oblivious (bind m k).
Proof.
  intros Hm Hk tr. unfold events, outcome, bind.
  rewrite (Hm tr), (Hm []). simpl.
  destruct (outcome m) as [a | e | c]; simpl.
  - rewrite (Hk a (tr ++ events m)), (Hk a (events m)). simpl.
    by rewrite app_assoc.
  - reflexivity.
  - reflexivity.
Qed.

Lemma oblivious_for_each {A S} (xs : list A) (body : S → A → M S) :
  (∀ acc x, oblivious (body acc x)) → ∀ acc, oblivious (for_each xs body acc).
Proof.
  intros Hbody. induction xs as [| x xs IH]; intros acc; simpl.
  - apply oblivious_ret.
  - apply oblivious_bind; [apply Hbody | apply IH].
Qed.

Lemma oblivious_try_except {A} (body : M A) (handler : exn → M A) :
  oblivious body → (∀ e, oblivious (handler e)) →
  oblivious (try_except body handler).
Proof.
  intros Hb Hh tr. unfold events, outcome, try_except.
  rewrite (Hb tr), (Hb []). simpl.
  destruct (outcome body) as [a | e | c]; simpl; try reflexivity.
  rewrite (Hh e (tr ++ events body)), (Hh e (events body)). simpl.
  by rewrite app_assoc.
Qed.

(** [bind] on a known first step. *)
Lemma bind_ok {A B} (m : M A) (k : A → M B) tr tr' a :
  m tr = (tr', Ok a) → bind m k tr = k a tr'.
Proof. intros H. unfold bind. by rewrite H. Qed.

Lemma bind_raise {A B} (m : M A) (k : A → M B) tr tr' e :
  m tr = (tr', Raise e) → bind m k tr = (tr', Raise e).
Proof. intros H. unfold bind. by rewrite H. Qed.

(** ** The helpers on small inputs *)

Example path_join_dir :
  path_join "ofls" "dahtbon_history.rdb" = "ofls/dahtbon_history.rdb".
Proof. reflexivity. Qed.

Example path_join_slash :
  path_join "ofls/" "dahtbon_history.rdb" = "ofls/dahtbon_history.rdb".
Proof. reflexivity. Qed.

Example path_join_empty :
  path_join "" "dahtbon_history.rdb" = "dahtbon_history.rdb".
Proof. reflexivity. Qed.

Example index_neg_six : index_neg [1; 2; 3; 4; 5; 6]%Z 5 = Ok 2%Z.
Proof. reflexivity. Qed.

Example index_neg_four :
  index_neg [1; 2; 3; 4]%Z 5 = Raise (IndexError "index out of bounds").
Proof. reflexivity. Qed.

Example mask_select_three :
  mask_select [1; 2; 3]%Z
    (array_and (array_ge [0; 5; 9]%float 1) (array_le [0; 5; 9]%float 9))
  = [2; 3]%Z.
Proof. reflexivity. Qed.

Example np_mean_four :
  np_mean float64 [40; 41; 42; 43]%float = 41.5%float.
Proof. reflexivity. Qed.

(** Fewer than 8 entries are added one by one, 8 entries in pairs: the two
    orders round differently. *)
Example np_mean_seven :
  np_mean float64 [38.12; 38.23; 38.37; 38.41; 38.55; 38.61; 38.07]%float
  = PrimFloat.div
      (fold_left PrimFloat.add
         [38.12; 38.23; 38.37; 38.41; 38.55; 38.61; 38.07]%float 0%float)
      7%float.
Proof. reflexivity. Qed.

Example np_mean_eight :
  np_mean float64
    [38.12; 38.23; 38.37; 38.41; 38.55; 38.61; 38.07; 38.34]%float
  = 38.337499999999999%float
  ∧ PrimFloat.div
      (fold_left PrimFloat.add
         [38.12; 38.23; 38.37; 38.41; 38.55; 38.61; 38.07; 38.34]%float
         0%float)
      8%float
    = 38.337500000000006%float.
Proof. split; reflexivity. Qed.

(** In single precision. *)
Example add_float32_tenths :
  add_float32 (round_float32 0.1) (round_float32 0.2)
  = 0.30000001192092896%float.
Proof. reflexivity. Qed.

Example np_mean_float32 :
  np_mean float32 (map round_float32 [38.12; 38.23; 38.37]%float)
  = round_float32 38.24%float
  ∧ np_mean float64 (map round_float32 [38.12; 38.23; 38.37]%float)
    = 38.239999135335289%float.
Proof. split; reflexivity. Qed.

(** More than 128 entries are split; in exact arithmetic the order does not
    show. *)
Example add_reduce_300 :
  add_reduce Z.add 0%Z (map Z.of_nat (seq 1 300)) = 45150%Z.
Proof. reflexivity. Qed.

(** ** [np.mean] *)




(** In exact arithmetic the reduction is the sum of the entries. *)
Lemma sum_loop_exact (res : Qc) (a : list Qc) :
  sum_loop Qcplus res a = Qcplus res (fold_right Qcplus 0%Qc a).
Proof.
  unfold sum_loop. revert res.
  induction a as [| x a IH]; intros res; simpl.
  - ring.
  - rewrite IH. ring.
Qed.






Example getcol_pitch : getcol ex_states "pitch" = Ok [150; 90]%float.
Proof. reflexivity. Qed.

(** ** [calc_model] *)

Section Properties.
Set Default Proof Using "Type".
Context {ModelSpec Prediction DB : Type}.
Variable xija_dvals :
  ModelSpec → float → float → string → data * data → list float.
Variable xija_calc :
  string → ModelSpec → float → float → gmap string (data * data) → Prediction.
Variable calc_off_nom_rolls : table → list float.
Variable get_state0 : float → DB → string → Z → result (gmap string value).
Variable tlm_dtype : string → dtype.
Variable date2secs : string → float.
Variable fs : gmap string rdb_file.
Variable T_msid : string.

Local Abbreviation calc_model_ :=
  (calc_model xija_dvals xija_calc calc_off_nom_rolls).
Local Abbreviation psmc_check_ :=
  (psmc_check xija_dvals xija_calc calc_off_nom_rolls T_msid).
Local Abbreviation calc_model_wrapper_ := (calc_model_wrapper date2secs fs).
Local Abbreviation set_initial_state_ :=
  (set_initial_state get_state0 tlm_dtype).

(** Case analysis on every column lookup of the goal, or of a hypothesis,
    dropping the cases that the hypothesis excludes. *)
Ltac case_getcol states :=
  repeat match goal with
         | |- context [getcol states ?n] => destruct (getcol states n)
         end.

Ltac case_getcol_in states H :=
  case_getcol_in states H.

Lemma oblivious_make_calc (model : XijaModel ModelSpec Prediction) :
  oblivious (make_calc ModelSpec Prediction xija_calc model).
Proof.
  unfold make_calc. apply oblivious_bind; [apply oblivious_emit |].
  intros _. apply oblivious_ret.
Qed.

Lemma oblivious_calc_model ms states start stop a b c d e f :
  oblivious (calc_model_ ms states start stop a b c d e f).
Proof.
  unfold calc_model.
  repeat first
    [ apply oblivious_make_calc
    | apply oblivious_lift
    | apply oblivious_ret
    | apply oblivious_for_each; intros ? ?
    | apply oblivious_bind; [| intros ?] ].
Qed.

(** What a call that returns has done. *)
Lemma calc_model_inv ms states start stop
    T_psmc T_psmc_times T_pin1at T_pin1at_times dh_heater dh_heater_times
    tr tr' model :
  calc_model_ ms states start stop T_psmc T_psmc_times T_pin1at
    T_pin1at_times dh_heater dh_heater_times tr = (tr', Ok model) →
  tr' = tr ++ [EvXijaCalc "psmc"]
  ∧ comp model !! "1pdeaat" = Some (T_psmc, T_psmc_times)
  ∧ comp model !! "pin1at" =
      Some (match T_pin1at with
            | DNone =>
                DArray (map (λ v, PrimFloat.sub v 10%float)
                          (xija_dvals ms start stop "1pdeaat"
                             (T_psmc, T_psmc_times)))
            | _ => T_pin1at
            end, T_pin1at_times)
  ∧ comp model !! "eclipse" = Some (DBool false, DNone)
  ∧ comp model !! "dh_heater" = Some (dh_heater, dh_heater_times)
  ∧ prediction model = Some (xija_calc "psmc" ms start stop (comp model)).
Proof.
  unfold calc_model, bind, lift, for_each, ret, make_calc, emit.
  case_getcol states; simpl; intros H; try discriminate H.
  injection H as <- <-. simpl.
  unfold dvals. simpl.
  repeat split; by simplify_map_eq.
Qed.

(** A call on a states table with the columns it reads returns a model,
    after one run of the engine. *)
Lemma calc_model_returns ms states start stop a b c d e f :
  has_columns states calc_model_columns = true →
  ∃ model, ∀ tr,
    calc_model_ ms states start stop a b c d e f tr
    = (tr ++ [EvXijaCalc "psmc"], Ok model).
Proof.
  unfold has_columns, calc_model_columns, calc_model, bind, lift, for_each,
    ret, make_calc, emit. simpl.
  case_getcol states; simpl; intros H; try discriminate H.
  eexists. intros tr. reflexivity.
Qed.

(** The only event of a call is the run of the engine. *)
Lemma calc_model_events ms states start stop a b c d e f :
  events (calc_model_ ms states start stop a b c d e f) = []
  ∨ events (calc_model_ ms states start stop a b c d e f)
    = [EvXijaCalc "psmc"].
Proof.
  unfold events, calc_model, bind, lift, for_each, ret, make_calc, emit.
  case_getcol states; simpl; auto.
Qed.

(** C8: every call of [calc_model] sets the eclipse driver of the model to
    the constant [False], with no times, whatever the states table, the
    bounds, the seeds and the heater inputs are: a model that the call
    returns has this entry, and the call returns a model whenever the states
    table has the columns that are read. *)
Theorem calc_model_eclipse_false ms states start stop
    T_psmc T_psmc_times T_pin1at T_pin1at_times dh_heater dh_heater_times :
  (∀ tr tr' model,
     calc_model_ ms states start stop T_psmc T_psmc_times T_pin1at
       T_pin1at_times dh_heater dh_heater_times tr = (tr', Ok model) →
     comp model !! "eclipse" = Some (DBool false, DNone))
  ∧ (has_columns states calc_model_columns = true →
     ∃ model,
       outcome (calc_model_ ms states start stop T_psmc T_psmc_times T_pin1at
                  T_pin1at_times dh_heater dh_heater_times) = Ok model
       ∧ comp model !! "eclipse" = Some (DBool false, DNone)).
Proof.
  split.
  - intros tr tr' model H.
    by apply calc_model_inv in H as (_ & _ & _ & Hecl & _).
  - intros Hcols.
    destruct (calc_model_returns ms states start stop T_psmc T_psmc_times
                T_pin1at T_pin1at_times dh_heater dh_heater_times Hcols)
      as [model Hrun].
    exists model. split.
    + unfold outcome. by rewrite Hrun.
    + specialize (Hrun []).
      by apply calc_model_inv in Hrun as (_ & _ & _ & Hecl & _).
Qed.

(** ** [calc_model_wrapper] *)

Lemma wrapper_None (self : ACISThermalCheck ModelSpec Prediction)
    oflsdir ms states tstart tstop tr :
  calc_model_wrapper_ self oflsdir ms states tstart tstop None tr
  = self_calc_model self ms states tstart tstop
      DNone DNone DNone DNone DNone DNone tr.
Proof. reflexivity. Qed.

Lemma rdb_col_has (htrb : rdb_table) :
  has_heater_columns htrb = true →
  rdb_col htrb "time" time = Ok (map time (rdb_rows htrb))
  ∧ rdb_col htrb "dahtbon" dahtbon = Ok (map dahtbon (rdb_rows htrb)).
Proof.
  unfold has_heater_columns, rdb_col.
  intros [-> ->]%andb_true_iff. done.
Qed.

(** The run of the wrapper once the temperature of the tracked sensor is
    found in [state0]: the log line, the read, and then what the file
    allows. *)
Lemma wrapper_run (self : ACISThermalCheck ModelSpec Prediction)
    oflsdir ms states tstart tstop s0 x tr :
  s0 !! t_msid self = Some (VFloat x) →
  calc_model_wrapper_ self oflsdir ms states tstart tstop (Some s0) tr
  = let tr' :=
      tr ++ [EvLogInfo ("Reading file of dahtrb commands from file "
                        +:+ heater_history_file oflsdir);
             EvReadRdb (heater_history_file oflsdir)] in
    match fs !! heater_history_file oflsdir with
    | None => (tr', Raise (IOError (heater_history_file oflsdir)))
    | Some (RdbMalformed msg) => (tr', Raise (InconsistentTableError msg))
    | Some (RdbTable htrb) =>
        match rdb_col htrb "time" time with
        | Ok times =>
            match rdb_col htrb "dahtbon" dahtbon with
            | Ok flags =>
                self_calc_model self ms states tstart tstop
                  (DFloat x) DNone (DFloat (PrimFloat.sub x 10%float)) DNone
                  (DBoolArray (map (λ z, negb (z =? 0)%Z) flags))
                  (DArray (map date2secs times)) tr'
            | Raise e => (tr', Raise e)
            | SysExit code => (tr', SysExit code)
            end
        | Raise e => (tr', Raise e)
        | SysExit code => (tr', SysExit code)
        end
    end.
Proof.
  intros Hx.
  unfold calc_model_wrapper, bind, lift, getitem, ascii_read, log_info, emit,
    ret, raise, bind. fold (heater_history_file oflsdir).
  rewrite Hx. simpl. rewrite <- app_assoc. simpl.
  destruct (fs !! heater_history_file oflsdir) as [[msg | htrb] |];
    [reflexivity | | reflexivity].
  destruct (rdb_col htrb "time" time); [| reflexivity ..].
  destruct (rdb_col htrb "dahtbon" dahtbon); reflexivity.
Qed.

Lemma wrapper_seeded (self : ACISThermalCheck ModelSpec Prediction)
    oflsdir ms states tstart tstop s0 x htrb tr :
  s0 !! t_msid self = Some (VFloat x) →
  fs !! heater_history_file oflsdir = Some (RdbTable htrb) →
  has_heater_columns htrb = true →
  calc_model_wrapper_ self oflsdir ms states tstart tstop (Some s0) tr
  = self_calc_model self ms states tstart tstop
      (DFloat x) DNone (DFloat (PrimFloat.sub x 10%float)) DNone
      (DBoolArray (map (λ z, negb (z =? 0)%Z)
                     (map dahtbon (rdb_rows htrb))))
      (DArray (map date2secs (map time (rdb_rows htrb))))
      (tr ++ [EvLogInfo ("Reading file of dahtrb commands from file "
                         +:+ heater_history_file oflsdir);
              EvReadRdb (heater_history_file oflsdir)]).
Proof.
  intros Hx Hfile Hcols.
  rewrite (wrapper_run self oflsdir ms states tstart tstop s0 x tr Hx).
  rewrite Hfile. simpl.
  destruct (rdb_col_has htrb Hcols) as [-> ->]. reflexivity.
Qed.

(** C3: when the heater-command history file [dahtbon_history.rdb] of the
    planning-products directory is absent, a call of [calc_model_wrapper]
    with a [state0] raises and returns no model, and the model calculation
    is not run: the file is read before [calc_model] is called.  With the
    temperature of the tracked sensor in [state0], the call logs, tries to
    read the file and raises the exception of the reader for that file,
    MissingHeaterHistoryError in the words of the specification. *)
Theorem missing_heater_history_is_fatal (self : ACISThermalCheck ModelSpec Prediction)
    oflsdir ms states tstart tstop s0 tr :
  fs !! heater_history_file oflsdir = None →
  ∃ evs e,
    calc_model_wrapper_ self oflsdir ms states tstart tstop (Some s0) tr
    = (tr ++ evs, Raise e)
    ∧ (∀ x, s0 !! t_msid self = Some (VFloat x) →
         evs = [EvLogInfo ("Reading file of dahtrb commands from file "
                           +:+ heater_history_file oflsdir);
                EvReadRdb (heater_history_file oflsdir)]
         ∧ e = MissingHeaterHistoryError oflsdir)
    ∧ List.filter is_xija_calc evs = [].
Proof.
  intros Hfile.
  unfold calc_model_wrapper, bind, lift, getitem, ascii_read, log_info, emit,
    ret, raise, bind. fold (heater_history_file oflsdir).
  destruct (s0 !! t_msid self) as [[x | s] |] eqn:Hx; simpl.
  - rewrite Hfile. simpl. eexists _, _. split; [| split].
    + by rewrite <- app_assoc.
    + intros x' [= <-]. done.
    + reflexivity.
  - exists [], (TypeError "unsupported operand type(s) for -").
    rewrite app_nil_r. repeat split; done.
  - exists [], (KeyError (t_msid self)).
    rewrite app_nil_r. repeat split; done.
Qed.

Lemma wrapper_reads oflsdir ms states tstart tstop s0 x :
  s0 !! T_msid = Some (VFloat x) →
  EvReadRdb (heater_history_file oflsdir)
  ∈ events (calc_model_wrapper_ psmc_check_ oflsdir ms states tstart tstop
              (Some s0)).
Proof.
  intros Hx. unfold events.
  rewrite (wrapper_run psmc_check_ oflsdir ms states tstart tstop s0 x []
             Hx).
  cbv zeta.
  assert (Hin : ∀ rest,
    EvReadRdb (heater_history_file oflsdir)
    ∈ ([] ++ [EvLogInfo ("Reading file of dahtrb commands from file "
                         +:+ heater_history_file oflsdir);
              EvReadRdb (heater_history_file oflsdir)]) ++ rest).
  { intros rest. simpl. apply elem_of_cons. right. apply elem_of_cons.
    by left. }
  destruct (fs !! heater_history_file oflsdir) as [[msg | htrb] |];
    try (simpl; specialize (Hin []); by rewrite app_nil_r in Hin).
  destruct (rdb_col htrb "time" time);
    try (simpl; specialize (Hin []); by rewrite app_nil_r in Hin).
  destruct (rdb_col htrb "dahtbon" dahtbon);
    try (simpl; specialize (Hin []); by rewrite app_nil_r in Hin).
  simpl self_calc_model. rewrite oblivious_calc_model. simpl fst.
  apply Hin.
Qed.

(** C10: [calc_model_wrapper] reads the heater-command history file if and
    only if [state0] is not [None] (a [state0] holds the temperature of the
    tracked sensor).  With [state0] None it hands [None] to [calc_model] for
    the seed of the tracked sensor, the seed of the companion sensor and
    both heater inputs and does nothing else, so what this run does is the
    same whatever files exist. *)
Theorem heater_history_read_iff_state0 oflsdir ms states tstart tstop state0 :
  (∀ s0, state0 = Some s0 → ∃ x, s0 !! T_msid = Some (VFloat x)) →
  ((∃ path,
      EvReadRdb path
      ∈ events (calc_model_wrapper_ psmc_check_ oflsdir ms states tstart tstop
                  state0))
   ↔ state0 ≠ None)
  ∧ (∀ tr,
       calc_model_wrapper_ psmc_check_ oflsdir ms states tstart tstop None tr
       = calc_model_ ms states tstart tstop
           DNone DNone DNone DNone DNone DNone tr)
  ∧ (∀ fs' tr,
       calc_model_wrapper date2secs fs' psmc_check_ oflsdir ms states
         tstart tstop None tr
       = calc_model_wrapper_ psmc_check_ oflsdir ms states tstart tstop
           None tr).
Proof.
  intros Hseed. split; [| split].
  - split.
    + intros [path Hin] ->. unfold events in Hin.
      rewrite wrapper_None in Hin. simpl self_calc_model in Hin.
      destruct (calc_model_events ms states tstart tstop
                  DNone DNone DNone DNone DNone DNone) as [He | He];
        unfold events in He; rewrite He in Hin.
      * by apply elem_of_nil in Hin.
      * apply list_elem_of_singleton in Hin. discriminate Hin.
    + intros Hsome. destruct state0 as [s0 |]; [| done].
      destruct (Hseed s0 eq_refl) as [x Hx].
      exists (heater_history_file oflsdir). by eapply wrapper_reads.
  - intros tr. apply wrapper_None.
  - intros fs' tr. reflexivity.
Qed.

(** A seeded run of the wrapper that returns has called [calc_model] with
    the temperature of [state0] and that temperature minus 10.0. *)
Lemma wrapper_ok_inv oflsdir ms states tstart tstop s0 x tr tr' model :
  s0 !! T_msid = Some (VFloat x) →
  calc_model_wrapper_ psmc_check_ oflsdir ms states tstart tstop (Some s0) tr
  = (tr', Ok model) →
  ∃ htrb,
    fs !! heater_history_file oflsdir = Some (RdbTable htrb)
    ∧ rdb_col htrb "time" time = Ok (map time (rdb_rows htrb))
    ∧ rdb_col htrb "dahtbon" dahtbon = Ok (map dahtbon (rdb_rows htrb))
    ∧ calc_model_ ms states tstart tstop
        (DFloat x) DNone (DFloat (PrimFloat.sub x 10%float)) DNone
        (DBoolArray (map (λ z, negb (z =? 0)%Z)
                       (map dahtbon (rdb_rows htrb))))
        (DArray (map date2secs (map time (rdb_rows htrb))))
        (tr ++ [EvLogInfo ("Reading file of dahtrb commands from file "
                           +:+ heater_history_file oflsdir);
                EvReadRdb (heater_history_file oflsdir)])
      = (tr', Ok model).
Proof.
  intros Hx.
  rewrite (wrapper_run psmc_check_ oflsdir ms states tstart tstop s0 x tr
             Hx).
  cbv zeta.
  destruct (fs !! heater_history_file oflsdir) as [[msg | htrb] |];
    [discriminate | | discriminate].
  unfold rdb_col.
  destruct (existsb (String.eqb "time") (rdb_colnames htrb)) eqn:Ht;
    [| discriminate].
  destruct (existsb (String.eqb "dahtbon") (rdb_colnames htrb)) eqn:Hd;
    [| discriminate].
  simpl self_calc_model. intros Hrun. exists htrb.
  rewrite Ht, Hd. done.
Qed.

(** C1: when the caller supplies no reading of the companion sensor, its
    seed is the seed of the tracked sensor minus the constant 10.0.  In
    [calc_model] with [T_pin1at] None the data of node [pin1at] are the
    driver values of node [1pdeaat] minus 10.0, elementwise; in
    [calc_model_wrapper] with initial conditions the seed of [pin1at] is
    [state0[t_msid] - 10.0], the seed of [1pdeaat] being [state0[t_msid]],
    in the run on a heater history with its two columns as in every run
    that returns a model; in [calc_model_wrapper] without initial conditions
    the data of [pin1at] are again the driver values of [1pdeaat] minus
    10.0.  The offset is the same constant for every input. *)
Theorem pin1at_seed_offset oflsdir ms states tstart tstop :
  has_columns states calc_model_columns = true →
  (∀ T_psmc T_psmc_times T_pin1at_times dh_heater dh_heater_times,
     ∃ model,
       (∀ tr,
          calc_model_ ms states tstart tstop T_psmc T_psmc_times DNone
            T_pin1at_times dh_heater dh_heater_times tr
          = (tr ++ [EvXijaCalc "psmc"], Ok model))
       ∧ comp model !! "1pdeaat" = Some (T_psmc, T_psmc_times)
       ∧ comp model !! "pin1at"
         = Some (DArray (map (λ v, PrimFloat.sub v 10%float)
                           (xija_dvals ms tstart tstop "1pdeaat"
                              (T_psmc, T_psmc_times))),
                 T_pin1at_times))
  ∧ (∀ s0 x htrb,
       s0 !! T_msid = Some (VFloat x) →
       fs !! heater_history_file oflsdir = Some (RdbTable htrb) →
       has_heater_columns htrb = true →
       ∃ evs model,
         (∀ tr,
            calc_model_wrapper_ psmc_check_ oflsdir ms states tstart tstop
              (Some s0) tr
            = (tr ++ evs, Ok model))
         ∧ comp model !! "1pdeaat" = Some (DFloat x, DNone)
         ∧ comp model !! "pin1at"
           = Some (DFloat (PrimFloat.sub x 10%float), DNone))
  ∧ (∃ model,
       (∀ tr,
          calc_model_wrapper_ psmc_check_ oflsdir ms states tstart tstop
            None tr
          = (tr ++ [EvXijaCalc "psmc"], Ok model))
       ∧ comp model !! "pin1at"
         = Some (DArray (map (λ v, PrimFloat.sub v 10%float)
                           (xija_dvals ms tstart tstop "1pdeaat"
                              (DNone, DNone))),
                 DNone))
  ∧ (∀ s0 x tr tr' model,
       s0 !! T_msid = Some (VFloat x) →
       calc_model_wrapper_ psmc_check_ oflsdir ms states tstart tstop
         (Some s0) tr
       = (tr', Ok model) →
       comp model !! "1pdeaat" = Some (DFloat x, DNone)
       ∧ comp model !! "pin1at"
         = Some (DFloat (PrimFloat.sub x 10%float), DNone)).
Proof.
  intros Hcols. split; [| split; [| split]].
  - intros T_psmc T_psmc_times T_pin1at_times dh_heater dh_heater_times.
    destruct (calc_model_returns ms states tstart tstop T_psmc T_psmc_times
                DNone T_pin1at_times dh_heater dh_heater_times Hcols)
      as [model Hrun].
    exists model. split; [exact Hrun |].
    specialize (Hrun []).
    by apply calc_model_inv in Hrun as (_ & H1 & H2 & _).
  - intros s0 x htrb Hx Hfile Hheater.
    destruct (calc_model_returns ms states tstart tstop (DFloat x) DNone
                (DFloat (PrimFloat.sub x 10%float)) DNone
                (DBoolArray (map (λ z, negb (z =? 0)%Z)
                               (map dahtbon (rdb_rows htrb))))
                (DArray (map date2secs (map time (rdb_rows htrb)))) Hcols)
      as [model Hrun].
    eexists _, model. split.
    + intros tr.
      rewrite (wrapper_seeded psmc_check_ oflsdir ms states tstart tstop
                 s0 x htrb tr Hx Hfile Hheater).
      simpl self_calc_model. rewrite Hrun. by rewrite <- app_assoc.
    + specialize (Hrun []).
      by apply calc_model_inv in Hrun as (_ & H1 & H2 & _).
  - destruct (calc_model_returns ms states tstart tstop DNone DNone DNone
                DNone DNone DNone Hcols) as [model Hrun].
    exists model. split.
    + intros tr. rewrite wrapper_None. apply Hrun.
    + specialize (Hrun []).
      by apply calc_model_inv in Hrun as (_ & _ & H2 & _).
  - intros s0 x tr tr' model Hx Hrun.
    apply (wrapper_ok_inv oflsdir ms states tstart tstop s0 x tr tr' model
             Hx) in Hrun as (htrb & _ & _ & _ & Hrun).
    by apply calc_model_inv in Hrun as (_ & H1 & H2 & _).
Qed.

(** ** [set_initial_state] *)

Lemma index_neg_short {A} (a : list A) (k : nat) :
  (length a < k)%nat → index_neg a k = Raise (IndexError "index out of bounds").
Proof.
  intros Hlt. unfold index_neg. rewrite bool_decide_eq_false_2; [done | lia].
Qed.

Lemma index_neg_ok {A} (a : list A) (k : nat) :
  (1 ≤ k)%nat → (k ≤ length a)%nat →
  ∃ x, a !! (length a - k)%nat = Some x ∧ index_neg a k = Ok x.
Proof.
  intros Hk Hle. unfold index_neg. rewrite bool_decide_eq_true_2; [| done].
  destruct (lookup_lt_is_Some_2 a (length a - k)%nat) as [x Hx]; [lia |].
  exists x. by rewrite Hx.
Qed.

(** Selecting with the mask of the window keeps the samples of the rows
    whose date lies in the window, in order. *)
Lemma mask_select_window (tlm : list tlm_row) (field : string) (lo hi : float) :
  mask_select (tlm_col tlm field)
    (array_and (array_ge (tlm_col tlm "date") lo)
               (array_le (tlm_col tlm "date") hi))
  = map (λ row : tlm_row, row field)
      (List.filter
         (λ row : tlm_row,
            PrimFloat.leb lo (row "date") && PrimFloat.leb (row "date") hi)
         tlm).
Proof.
  unfold tlm_col, array_and, array_ge, array_le.
  induction tlm as [| row tlm IH]; simpl; [done |].
  destruct (PrimFloat.leb lo (row "date") && PrimFloat.leb (row "date") hi);
    simpl; by rewrite IH.
Qed.

(** The run of [set_initial_state] once the prior state [s0], of start time
    [t0], is resolved. *)
Lemma set_initial_state_run (self : ACISThermalCheck ModelSpec Prediction)
    (tlm : list tlm_row) (db : DB) d5 s0 t0 tr :
  index_neg (tlm_col tlm "date") 5 = Ok d5 →
  get_state0 d5 db "datestart" (-100) = Ok s0 →
  s0 !! "tstart" = Some (VFloat t0) →
  set_initial_state_ self tlm db tr
  = (tr ++ [EvGetState0 d5 "datestart" (-100)],
     Ok (<[t_msid self :=
             VFloat (np_mean (tlm_dtype (msid self))
                       (map (λ row : tlm_row, row (msid self))
                          (List.filter
                             (λ row : tlm_row, within_700s t0 (row "date"))
                             tlm)))]> s0)).
Proof.
  intros Hd5 Hs0 Ht0.
  unfold set_initial_state, bind, lift, emit, ret, getitem.
  rewrite Hd5. simpl. rewrite Hs0. simpl. rewrite Ht0. simpl.
  by rewrite mask_select_window.
Qed.


Lemma np_mean_nil (d : dtype) : np_mean d [] = PrimFloat.nan.
Proof. by destruct d. Qed.

(** C4, as the code has it: on a telemetry table with no sample within 700
    seconds of the start time of the resolved state, [set_initial_state]
    raises nothing.  It returns the resolved state with, under the key of
    the tracked sensor, the mean of no sample, which is NaN. *)
Theorem set_initial_state_empty_window
    (self : ACISThermalCheck ModelSpec Prediction)
    (tlm : list tlm_row) (db : DB) d5 s0 t0 tr :
  index_neg (tlm_col tlm "date") 5 = Ok d5 →
  get_state0 d5 db "datestart" (-100) = Ok s0 →
  s0 !! "tstart" = Some (VFloat t0) →
  List.filter (λ row : tlm_row, within_700s t0 (row "date")) tlm = [] →
  set_initial_state_ self tlm db tr
  = (tr ++ [EvGetState0 d5 "datestart" (-100)],
     Ok (<[t_msid self := VFloat PrimFloat.nan]> s0)).
Proof.
  intros Hd5 Hs0 Ht0 Hempty.
  rewrite (set_initial_state_run self tlm db d5 s0 t0 tr Hd5 Hs0 Ht0).
  rewrite Hempty. simpl map. by rewrite np_mean_nil.
Qed.

(** C9: [set_initial_state] asks the state database for the date of the
    fifth-from-last telemetry sample, [tlm['date'][-5]], and for no other
    date.  On a table of fewer than 5 samples the indexing raises
    IndexError: nothing is looked up and no initial state is returned. *)
Theorem set_initial_state_fifth_from_last
    (self : ACISThermalCheck ModelSpec Prediction)
    (tlm : list tlm_row) (db : DB) tr :
  ((length tlm < 5)%nat →
   ∃ msg, set_initial_state_ self tlm db tr = (tr, Raise (IndexError msg)))
  ∧ ((5 ≤ length tlm)%nat →
     ∃ row r,
       tlm !! (length tlm - 5)%nat = Some row
       ∧ set_initial_state_ self tlm db tr
         = (tr ++ [EvGetState0 (row "date") "datestart" (-100)], r)
       ∧ (∀ e, get_state0 (row "date") db "datestart" (-100) = Raise e →
               r = Raise e)
       ∧ (∀ state, r = Ok state →
            ∃ s0, get_state0 (row "date") db "datestart" (-100) = Ok s0)).
Proof.
  split.
  - intros Hlt. eexists.
    unfold set_initial_state, bind, lift.
    rewrite index_neg_short; [reflexivity |].
    unfold tlm_col. by rewrite length_map.
  - intros Hle.
    destruct (index_neg_ok (tlm_col tlm "date") 5) as (d5 & Hlook & Hidx);
      [lia | unfold tlm_col; by rewrite length_map |].
    unfold tlm_col in Hlook. rewrite length_map in Hlook.
    change (map ?f ?l) with (f <$> l) in Hlook.
    apply list_lookup_fmap_Some in Hlook as (row & -> & Hrow).
    exists row, (snd (set_initial_state_ self tlm db tr)).
    split; [exact Hrow |].
    unfold set_initial_state, bind, lift, emit, ret.
    rewrite Hidx. simpl.
    destruct (get_state0 (row "date") db "datestart" (-100)) as [s0 | e | c];
      simpl.
    + destruct (getitem s0 "tstart") as [[t0 | str] | e | c]; simpl;
        (split; [reflexivity |]); split; first [discriminate | eauto].
    + split; [reflexivity |]. split; [by intros ? [= <-] | discriminate].
    + split; [reflexivity |]. split; discriminate.
Qed.

(** ** [write_states] *)

(** C6: [write_states] exports the states table without the column
    [T_pin1at] of the companion sensor: the exported table is the table of
    the planned timeline with exactly that column left out, every other
    column being exported as it is and in its place. *)
Theorem write_states_drops_T_pin1at
    (self : ACISThermalCheck ModelSpec Prediction) (opt : options)
    (states : table) :
  write_states self opt states
  = List.filter (λ col, negb (String.eqb (fst col) "T_pin1at")) states
  ∧ (∀ n c, (n, c) ∈ write_states self opt states
            ↔ (n, c) ∈ states ∧ n ≠ "T_pin1at")
  ∧ (∀ n, n ≠ "T_pin1at" →
          getcol (write_states self opt states) n = getcol states n)
  ∧ is_ok (getcol (write_states self opt states) "T_pin1at") = false.
Proof.
  assert (Hfilter :
    write_states self opt states
    = List.filter (λ col, negb (String.eqb (fst col) "T_pin1at")) states).
  { unfold write_states, ACISThermalCheck_write_states.
    apply List.filter_ext. intros col. simpl. by rewrite orb_false_r. }
  split; [exact Hfilter |]. rewrite Hfilter. clear Hfilter.
  split; [| split].
  - intros n c. rewrite !list_elem_of_In, List.filter_In. simpl.
    rewrite negb_true_iff, String.eqb_neq. reflexivity.
  - intros n Hn. induction states as [| [n' c] rest IH]; simpl; [done |].
    destruct (String.eqb n' "T_pin1at") eqn:Hn'; simpl.
    + apply String.eqb_eq in Hn' as ->.
      destruct (String.eqb "T_pin1at" n) eqn:Hnn; [| exact IH].
      apply String.eqb_eq in Hnn. congruence.
    + by rewrite IH.
  - induction states as [| [n' c] rest IH]; simpl; [done |].
    destruct (String.eqb n' "T_pin1at") eqn:Hn'; simpl; [exact IH |].
    by rewrite Hn'.
Qed.

(** ** [main] *)

Variable model_path : string.
Variable get_options :
  string → string → string → list (string * opt_spec) → M options.
Variable driver : ACISThermalCheck ModelSpec Prediction → options → M unit.

Local Abbreviation main_ :=
  (main xija_dvals xija_calc calc_off_nom_rolls T_msid model_path
     get_options driver).

(** C7: once the options are read, when the driver raises an exception,
    [main] prints [ERROR:] with the message and exits with status 1 if the
    traceback flag is not set, and raises the exception of the driver again,
    printing nothing, if the flag is set; when the driver succeeds, [main]
    returns and the exit status is 0. *)
Theorem main_failure_policy args tr0 tr1 :
  get_options "1PDEAAT" "psmc" model_path
    [("dh_heater",
      {| opt_type := "int"; opt_default := 0;
         opt_help := "Starting Detector Housing Heater state" |})] tr0
  = (tr1, Ok args) →
  (∀ tr2 e,
     driver psmc_check_ args tr1 = (tr2, Raise e) →
     (traceback args = false →
      main_ tr0 = (tr2 ++ [EvPrint ("ERROR: " +:+ exn_str e)], SysExit 1)
      ∧ exit_status (snd (main_ tr0)) = 1%Z)
     ∧ (traceback args = true → main_ tr0 = (tr2, Raise e)))
  ∧ (∀ tr2,
       driver psmc_check_ args tr1 = (tr2, Ok tt) →
       main_ tr0 = (tr2, Ok tt) ∧ exit_status (snd (main_ tr0)) = 0%Z).
Proof.
  intros Hopts.
  assert (Hmain :
    main_ tr0
    = try_except (driver psmc_check_ args)
        (λ msg,
           if traceback args then raise msg
           else exec print ("ERROR: " +:+ exn_str msg); sys_exit 1) tr1).
  { unfold main. by rewrite (bind_ok _ _ _ _ _ Hopts). }
  rewrite Hmain. unfold try_except. split.
  - intros tr2 e ->. split; intros ->; [| reflexivity].
    split; reflexivity.
  - intros tr2 ->. split; reflexivity.
Qed.

(** X14: an exit requested by the driver is not intercepted: [main] ends
    with the same exit code, whatever the traceback flag is, and prints
    nothing. *)
Lemma main_driver_exit args tr0 tr1 tr2 code :
  get_options "1PDEAAT" "psmc" model_path
    [("dh_heater",
      {| opt_type := "int"; opt_default := 0;
         opt_help := "Starting Detector Housing Heater state" |})] tr0
  = (tr1, Ok args) →
  driver psmc_check_ args tr1 = (tr2, SysExit code) →
  main xija_dvals xija_calc calc_off_nom_rolls T_msid model_path get_options
    driver tr0
  = (tr2, SysExit code).
Proof.
  intros Hopts Hdrv. unfold main. rewrite (bind_ok _ _ _ _ _ Hopts).
  unfold try_except. by rewrite Hdrv.
Qed.

(** * Further properties *)

(** ** [calc_model] *)

Lemma getcol_cases (states : table) (n : string) :
  (∃ col, getcol states n = Ok col)
  ∨ getcol states n = Raise (ValueError ("no field of name " +:+ n)).
Proof.
  induction states as [| [n' col] rest IH]; simpl; [by right |].
  destruct (String.eqb n' n); [left; by eexists | exact IH].
Qed.

(** On one column lookup: go on with the column, or stop at the error. *)
Ltac step_getcol states n :=
  let col := fresh "col" in
  let H := fresh "Hcol" in
  destruct (getcol_cases states n) as [[col H] | H]; rewrite H; simpl;
  [| reflexivity].

(** X1: [calc_model] reads the eight state columns in a fixed order.  When
    one is missing it raises the error of the first missing one, before the
    engine is run and without any other effect; when none is missing it
    runs the engine once and returns a model. *)
Theorem calc_model_first_missing_column ms states start stop
    T_psmc T_psmc_times T_pin1at T_pin1at_times dh_heater dh_heater_times :
  match first_missing states calc_model_columns with
  | Some n =>
      ∀ tr,
        calc_model_ ms states start stop T_psmc T_psmc_times T_pin1at
          T_pin1at_times dh_heater dh_heater_times tr
        = (tr, Raise (ValueError ("no field of name " +:+ n)))
  | None =>
      ∃ model, ∀ tr,
        calc_model_ ms states start stop T_psmc T_psmc_times T_pin1at
          T_pin1at_times dh_heater dh_heater_times tr
        = (tr ++ [EvXijaCalc "psmc"], Ok model)
  end.
Proof.
  unfold calc_model_columns, first_missing, calc_model, bind, lift,
    for_each, ret, make_calc, emit.
  step_getcol states "tstart". step_getcol states "tstop".
  step_getcol states "simpos". step_getcol states "ccd_count".
  step_getcol states "fep_count". step_getcol states "vid_board".
  step_getcol states "clocking". step_getcol states "pitch".
  eexists. intros tr. reflexivity.
Qed.

(** X2: a reading of the companion sensor that the caller supplies is given
    to node [pin1at] as it is, with its times: no offset is applied to it,
    and the driver values of [1pdeaat] are not consulted, so the call does
    the same whatever they are. *)
Theorem calc_model_explicit_pin1at
    (xija_dvals' :
       ModelSpec → float → float → string → data * data → list float)
    ms states start stop
    T_psmc T_psmc_times T_pin1at T_pin1at_times dh_heater dh_heater_times tr :
  T_pin1at ≠ DNone →
  calc_model xija_dvals xija_calc calc_off_nom_rolls ms states start stop
    T_psmc T_psmc_times T_pin1at T_pin1at_times dh_heater dh_heater_times tr
  = calc_model xija_dvals' xija_calc calc_off_nom_rolls ms states start stop
      T_psmc T_psmc_times T_pin1at T_pin1at_times dh_heater dh_heater_times
      tr
  ∧ (∀ tr' model,
       calc_model_ ms states start stop T_psmc T_psmc_times T_pin1at
         T_pin1at_times dh_heater dh_heater_times tr = (tr', Ok model) →
       comp model !! "pin1at" = Some (T_pin1at, T_pin1at_times)).
Proof.
  intros Hgiven. split.
  - destruct T_pin1at; [congruence | reflexivity ..].
  - intros tr' model Hrun.
    apply calc_model_inv in Hrun as (_ & _ & Hpin & _).
    rewrite Hpin. by destruct T_pin1at.
Qed.

(** X3: in a model that [calc_model] returns, each of the nodes
    [ccd_count], [fep_count], [vid_board], [clocking] and [pitch] holds the
    state column of its own name, node [sim_z] holds the column [simpos] and
    node [roll] the off-nominal rolls of the states; the times of all of
    them are the pair of the columns [tstart] and [tstop]. *)
Theorem calc_model_state_drivers ms states start stop
    T_psmc T_psmc_times T_pin1at T_pin1at_times dh_heater dh_heater_times
    tr tr' model :
  calc_model_ ms states start stop T_psmc T_psmc_times T_pin1at
    T_pin1at_times dh_heater dh_heater_times tr = (tr', Ok model) →
  ∃ tstart tstop simpos,
    getcol states "tstart" = Ok tstart
    ∧ getcol states "tstop" = Ok tstop
    ∧ getcol states "simpos" = Ok simpos
    ∧ comp model !! "sim_z"
      = Some (DArray simpos, DArray2 [tstart; tstop])
    ∧ comp model !! "roll"
      = Some (DArray (calc_off_nom_rolls states), DArray2 [tstart; tstop])
    ∧ (∀ n, n ∈ calc_model_loop_columns →
         ∃ col, getcol states n = Ok col
                ∧ comp model !! n
                  = Some (DArray col, DArray2 [tstart; tstop])).
Proof.
  unfold calc_model, bind, lift, for_each, ret, make_calc, emit.
  destruct (getcol states "tstart") as [tstart | |] eqn:H1; [| done ..].
  destruct (getcol states "tstop") as [tstop | |] eqn:H2; [| done ..].
  destruct (getcol states "simpos") as [simpos | |] eqn:H3; [| done ..].
  simpl.
  destruct (getcol states "ccd_count") as [c1 | |] eqn:H4; [| done ..].
  destruct (getcol states "fep_count") as [c2 | |] eqn:H5; [| done ..].
  destruct (getcol states "vid_board") as [c3 | |] eqn:H6; [| done ..].
  destruct (getcol states "clocking") as [c4 | |] eqn:H7; [| done ..].
  destruct (getcol states "pitch") as [c5 | |] eqn:H8; [| done ..].
  simpl. intros [= <- <-]. simpl.
  exists tstart, tstop, simpos.
  repeat (split; [by simplify_map_eq |]).
  intros n Hn. unfold calc_model_loop_columns in Hn.
  repeat (apply elem_of_cons in Hn as [-> | Hn];
          [eexists; split; [eassumption | by simplify_map_eq] |]).
  by apply elem_of_nil in Hn.
Qed.

(** X4: a model that [calc_model] returns has data for exactly eleven
    nodes, has the bounds and the specification of the call, and its
    prediction is the one of the engine for the psmc model on exactly this
    table of node data: the engine runs after the last [set_data]. *)
Theorem calc_model_nodes_and_prediction ms states start stop
    T_psmc T_psmc_times T_pin1at T_pin1at_times dh_heater dh_heater_times
    tr tr' model :
  calc_model_ ms states start stop T_psmc T_psmc_times T_pin1at
    T_pin1at_times dh_heater dh_heater_times tr = (tr', Ok model) →
  dom (comp model) = list_to_set calc_model_nodes
  ∧ model_name ModelSpec Prediction model = "psmc"
  ∧ model_start ModelSpec Prediction model = start
  ∧ model_stop ModelSpec Prediction model = stop
  ∧ model_spec_of ModelSpec Prediction model = ms
  ∧ prediction model = Some (xija_calc "psmc" ms start stop (comp model)).
Proof.
  unfold calc_model, bind, lift, for_each, ret, make_calc, emit.
  case_getcol states; simpl; intros H; try discriminate H.
  injection H as <- <-. simpl.
  split; [| done].
  rewrite !dom_insert_L, dom_empty_L. unfold calc_model_nodes. simpl.
  set_solver.
Qed.

(** ** [calc_model_wrapper] *)

(** X5: a [state0] without the temperature of the tracked sensor makes
    [calc_model_wrapper] raise KeyError for that key, and one that holds a
    string there makes it raise TypeError; both happen before the log line,
    the read of the heater history and the model calculation. *)
Theorem calc_model_wrapper_bad_state0
    (self : ACISThermalCheck ModelSpec Prediction)
    oflsdir ms states tstart tstop s0 tr :
  (s0 !! t_msid self = None →
   calc_model_wrapper_ self oflsdir ms states tstart tstop (Some s0) tr
   = (tr, Raise (KeyError (t_msid self))))
  ∧ (∀ str, s0 !! t_msid self = Some (VStr str) →
       ∃ msg,
         calc_model_wrapper_ self oflsdir ms states tstart tstop (Some s0) tr
         = (tr, Raise (TypeError msg))).
Proof.
  split.
  - intros Hx. unfold calc_model_wrapper, bind, lift, getitem.
    by rewrite Hx.
  - intros str Hx. eexists. unfold calc_model_wrapper, bind, lift, getitem.
    rewrite Hx. reflexivity.
Qed.

(** X6: a seeded run that returns a model has read the heater history file
    as a table, and the heater inputs of the model come from the rows of
    that table, one entry per row and in the order of the file: the heater
    is on where [dahtbon] is not zero, and the time is the one of the same
    row in seconds. *)
Theorem calc_model_wrapper_heater_inputs oflsdir ms states tstart tstop
    s0 x tr tr' model :
  s0 !! T_msid = Some (VFloat x) →
  calc_model_wrapper_ psmc_check_ oflsdir ms states tstart tstop (Some s0) tr
  = (tr', Ok model) →
  ∃ htrb on times,
    fs !! heater_history_file oflsdir = Some (RdbTable htrb)
    ∧ comp model !! "dh_heater" = Some (DBoolArray on, DArray times)
    ∧ length on = length (rdb_rows htrb)
    ∧ length times = length (rdb_rows htrb)
    ∧ (∀ i row, rdb_rows htrb !! i = Some row →
         on !! i = Some (negb (dahtbon row =? 0)%Z)
         ∧ times !! i = Some (date2secs (time row))).
Proof.
  intros Hx Hrun.
  apply (wrapper_ok_inv oflsdir ms states tstart tstop s0 x tr tr' model Hx)
    in Hrun as (htrb & Hfile & _ & _ & Hrun).
  apply calc_model_inv in Hrun as (_ & _ & _ & _ & Hheater & _).
  eexists htrb, _, _. split; [exact Hfile |]. split; [exact Hheater |].
  rewrite !length_map. split; [done |]. split; [done |].
  intros i row Hrow. change (map ?f ?l) with (f <$> l).
  rewrite !list_lookup_fmap, Hrow. done.
Qed.

(** X7: of a [state0], [calc_model_wrapper] reads the temperature of the
    tracked sensor and nothing else: two states that agree on that key give
    the same run.  A reading of the companion sensor kept in [state0] has
    no effect. *)
Theorem calc_model_wrapper_reads_only_t_msid
    (self : ACISThermalCheck ModelSpec Prediction)
    oflsdir ms states tstart tstop (s0 s0' : gmap string value) tr :
  s0 !! t_msid self = s0' !! t_msid self →
  calc_model_wrapper_ self oflsdir ms states tstart tstop (Some s0) tr
  = calc_model_wrapper_ self oflsdir ms states tstart tstop (Some s0') tr.
Proof.
  intros Heq. unfold calc_model_wrapper, bind, lift, getitem.
  by rewrite Heq.
Qed.

(** ** [set_initial_state] and its use *)

(** A state that [set_initial_state] returns holds a number under the key
    of the tracked sensor. *)
Lemma set_initial_state_has_temperature
    (self : ACISThermalCheck ModelSpec Prediction)
    (tlm : list tlm_row) (db : DB) tr tr' state :
  set_initial_state_ self tlm db tr = (tr', Ok state) →
  ∃ x, state !! t_msid self = Some (VFloat x).
Proof.
  unfold set_initial_state, bind, lift, emit, ret.
  destruct (index_neg (tlm_col tlm "date") 5) as [d5 | |]; [| done ..].
  simpl.
  destruct (get_state0 d5 db "datestart" (-100)) as [s0 | |]; [| done ..].
  simpl.
  destruct (getitem s0 "tstart") as [[t0 | str] | |]; simpl; [| done ..].
  intros [= <- <-]. eexists. apply lookup_insert_eq.
Qed.

(** X8: the state that [set_initial_state] returns is a good [state0] for
    [calc_model_wrapper] of the psmc check: the wrapper finds the
    temperature of the tracked sensor in it, logs and reads the heater
    history, and before the model calculation the only failures left are
    those of that read: the file is missing ([IOError]), it is not a table
    ([InconsistentTableError]), or the table lacks a column ([KeyError] of
    [time], looked up first, else of [dahtbon]).  On a table with both
    columns the
    wrapper is [calc_model] seeded with that temperature and with the
    temperature minus 10.0, which returns a model when the states have
    their columns. *)
Theorem set_initial_state_then_wrapper (tlm : list tlm_row) (db : DB)
    oflsdir ms states tstart tstop tr tr1 state :
  set_initial_state_ psmc_check_ tlm db tr = (tr1, Ok state) →
  let tr2 :=
    tr1 ++ [EvLogInfo ("Reading file of dahtrb commands from file "
                       +:+ heater_history_file oflsdir);
            EvReadRdb (heater_history_file oflsdir)] in
  ∃ x,
    state !! T_msid = Some (VFloat x)
    ∧ match fs !! heater_history_file oflsdir with
      | None =>
          calc_model_wrapper_ psmc_check_ oflsdir ms states tstart tstop
            (Some state) tr1
          = (tr2, Raise (IOError (heater_history_file oflsdir)))
      | Some (RdbMalformed msg) =>
          calc_model_wrapper_ psmc_check_ oflsdir ms states tstart tstop
            (Some state) tr1
          = (tr2, Raise (InconsistentTableError msg))
      | Some (RdbTable htrb) =>
          if has_heater_columns htrb
          then
            calc_model_wrapper_ psmc_check_ oflsdir ms states tstart tstop
              (Some state) tr1
            = calc_model_ ms states tstart tstop
                (DFloat x) DNone (DFloat (PrimFloat.sub x 10%float)) DNone
                (DBoolArray (map (λ z, negb (z =? 0)%Z)
                               (map dahtbon (rdb_rows htrb))))
                (DArray (map date2secs (map time (rdb_rows htrb)))) tr2
            ∧ (has_columns states calc_model_columns = true →
               ∃ model,
                 calc_model_wrapper_ psmc_check_ oflsdir ms states
                   tstart tstop (Some state) tr1
                 = (tr2 ++ [EvXijaCalc "psmc"], Ok model)
                 ∧ comp model !! "1pdeaat" = Some (DFloat x, DNone)
                 ∧ comp model !! "pin1at"
                   = Some (DFloat (PrimFloat.sub x 10%float), DNone))
          else
            calc_model_wrapper_ psmc_check_ oflsdir ms states
              tstart tstop (Some state) tr1
            = (tr2,
               Raise (KeyError
                        (if existsb (String.eqb "time") (rdb_colnames htrb)
                         then "dahtbon" else "time")))
      end.
Proof.
  intros Hinit tr2.
  destruct (set_initial_state_has_temperature psmc_check_ tlm db tr tr1
              state Hinit) as [x Hx].
  simpl t_msid in Hx. exists x. split; [exact Hx |].
  pose proof (wrapper_run psmc_check_ oflsdir ms states tstart tstop
                state x tr1 Hx) as Hrun.
  cbv zeta in Hrun. fold tr2 in Hrun.
  destruct (fs !! heater_history_file oflsdir) as [[msg | htrb] |];
    [exact Hrun | | exact Hrun].
  destruct (has_heater_columns htrb) eqn:Hcols.
  - destruct (rdb_col_has htrb Hcols) as [Ht Hd].
    rewrite Ht, Hd in Hrun. simpl self_calc_model in Hrun.
    split; [exact Hrun |].
    intros Hstates. rewrite Hrun.
    destruct (calc_model_returns ms states tstart tstop (DFloat x) DNone
                (DFloat (PrimFloat.sub x 10%float)) DNone
                (DBoolArray (map (λ z, negb (z =? 0)%Z)
                               (map dahtbon (rdb_rows htrb))))
                (DArray (map date2secs (map time (rdb_rows htrb))))
                Hstates) as [model Hcalc].
    exists model. split; [apply Hcalc |].
    specialize (Hcalc []).
    by apply calc_model_inv in Hcalc as (_ & H1 & H2 & _).
  - unfold has_heater_columns in Hcols. unfold rdb_col in Hrun.
    destruct (existsb (String.eqb "time") (rdb_colnames htrb)) eqn:Ht.
    + apply andb_false_iff in Hcols as [Hcols | Hcols];
        [discriminate Hcols |].
      rewrite Hcols in Hrun. exact Hrun.
    + exact Hrun.
Qed.

(** X9: [set_initial_state] returns a state exactly when the telemetry has
    at least five samples, the state database answers for the date of the
    fifth-from-last one, and the state it answers with has a number as its
    start time. *)
Theorem set_initial_state_returns_iff
    (self : ACISThermalCheck ModelSpec Prediction)
    (tlm : list tlm_row) (db : DB) tr :
  (∃ tr' state, set_initial_state_ self tlm db tr = (tr', Ok state))
  ↔ (5 ≤ length tlm)%nat
    ∧ ∃ row s0 t0,
        tlm !! (length tlm - 5)%nat = Some row
        ∧ get_state0 (row "date") db "datestart" (-100) = Ok s0
        ∧ s0 !! "tstart" = Some (VFloat t0).
Proof.
  split.
  - intros (tr' & state & Hrun).
    destruct (decide (5 ≤ length tlm)%nat) as [Hle | Hlt].
    + split; [exact Hle |].
      destruct (index_neg_ok (tlm_col tlm "date") 5) as (d5 & Hlook & Hidx);
        [lia | unfold tlm_col; by rewrite length_map |].
      unfold tlm_col in Hlook. rewrite length_map in Hlook.
      change (map ?f ?l) with (f <$> l) in Hlook.
      apply list_lookup_fmap_Some in Hlook as (row & -> & Hrow).
      exists row. revert Hrun.
      unfold set_initial_state, bind, lift, emit, ret, getitem.
      rewrite Hidx. simpl.
      destruct (get_state0 (row "date") db "datestart" (-100))
        as [s0 | |]; [| done ..]. simpl.
      destruct (s0 !! "tstart") as [[t0 | str] |] eqn:Ht0; simpl;
        [| done ..].
      intros _. by exists s0, t0.
    + exfalso. revert Hrun. unfold set_initial_state, bind, lift.
      rewrite index_neg_short; [done |].
      unfold tlm_col. rewrite length_map. apply Nat.nle_gt. exact Hlt.
  - intros (Hle & row & s0 & t0 & Hrow & Hs0 & Ht0).
    destruct (index_neg_ok (tlm_col tlm "date") 5) as (d5 & Hlook & Hidx);
      [lia | unfold tlm_col; by rewrite length_map |].
    unfold tlm_col in Hlook. rewrite length_map in Hlook.
    change (map ?f ?l) with (f <$> l) in Hlook.
    apply list_lookup_fmap_Some in Hlook as (row' & -> & Hrow').
    pose proof (eq_trans (eq_sym Hrow') Hrow) as Heq.
    injection Heq as ->.
    eexists _, _.
    by apply (set_initial_state_run self tlm db (row "date") s0 t0 tr).
Qed.

(** X10: when the state that the database answers with has no start time,
    [set_initial_state] raises KeyError for [tstart], and when the start
    time is a string it raises TypeError; in both cases after the lookup,
    and no state is returned. *)
Theorem set_initial_state_bad_tstart
    (self : ACISThermalCheck ModelSpec Prediction)
    (tlm : list tlm_row) (db : DB) d5 s0 tr :
  index_neg (tlm_col tlm "date") 5 = Ok d5 →
  get_state0 d5 db "datestart" (-100) = Ok s0 →
  (s0 !! "tstart" = None →
   set_initial_state_ self tlm db tr
   = (tr ++ [EvGetState0 d5 "datestart" (-100)], Raise (KeyError "tstart")))
  ∧ (∀ str, s0 !! "tstart" = Some (VStr str) →
       ∃ msg,
         set_initial_state_ self tlm db tr
         = (tr ++ [EvGetState0 d5 "datestart" (-100)],
            Raise (TypeError msg))).
Proof.
  intros Hd5 Hs0. split.
  - intros Ht0. unfold set_initial_state, bind, lift, emit, ret, getitem.
    rewrite Hd5. simpl. rewrite Hs0. simpl. by rewrite Ht0.
  - intros str Ht0. eexists.
    unfold set_initial_state, bind, lift, emit, ret, getitem.
    rewrite Hd5. simpl. rewrite Hs0. simpl. rewrite Ht0. reflexivity.
Qed.

Lemma index_neg_app {A} (old a : list A) (k : nat) x :
  index_neg a k = Ok x → index_neg (old ++ a) k = Ok x.
Proof.
  unfold index_neg. case_bool_decide as Hk; [| done].
  destruct (a !! (length a - k)%nat) as [y |] eqn:Hy; [| done].
  intros [= <-].
  rewrite bool_decide_eq_true_2 by (rewrite length_app; lia).
  rewrite length_app, lookup_app_r by lia.
  replace (length old + length a - k - length old)%nat
    with (length a - k)%nat by lia.
  by rewrite Hy.
Qed.

(** X11: telemetry older than the window does not count: rows put in
    front of the table whose dates are not within 700 seconds of the start
    time of the resolved state leave the run of [set_initial_state] as it
    is. *)
Theorem set_initial_state_older_samples
    (self : ACISThermalCheck ModelSpec Prediction)
    (old tlm : list tlm_row) (db : DB) d5 s0 t0 tr :
  index_neg (tlm_col tlm "date") 5 = Ok d5 →
  get_state0 d5 db "datestart" (-100) = Ok s0 →
  s0 !! "tstart" = Some (VFloat t0) →
  forallb (λ row : tlm_row, negb (within_700s t0 (row "date"))) old = true →
  set_initial_state_ self (old ++ tlm) db tr
  = set_initial_state_ self tlm db tr.
Proof.
  intros Hd5 Hs0 Ht0 Hold.
  assert (Hd5' : index_neg (tlm_col (old ++ tlm) "date") 5 = Ok d5).
  { unfold tlm_col. rewrite map_app. by apply index_neg_app. }
  rewrite (set_initial_state_run self (old ++ tlm) db d5 s0 t0 tr
             Hd5' Hs0 Ht0).
  rewrite (set_initial_state_run self tlm db d5 s0 t0 tr Hd5 Hs0 Ht0).
  rewrite List.filter_app.
  assert (Hnone :
    List.filter (λ row : tlm_row, within_700s t0 (row "date")) old = []).
  { clear Hd5'. induction old as [| row old IH]; simpl; [done |].
    simpl in Hold. apply andb_true_iff in Hold as [Hrow Hrest].
    apply negb_true_iff in Hrow. rewrite Hrow. by apply IH. }
  by rewrite Hnone.
Qed.

(** ** [main], further *)

(** X12: the options are read outside the [try]: when [get_options] raises
    or exits, [main] ends the same way, nothing is printed and the driver
    is not run. *)
Theorem main_options_failure tr0 tr1 :
  (∀ e,
     get_options "1PDEAAT" "psmc" model_path
       [("dh_heater",
         {| opt_type := "int"; opt_default := 0;
            opt_help := "Starting Detector Housing Heater state" |})] tr0
     = (tr1, Raise e) →
     main xija_dvals xija_calc calc_off_nom_rolls T_msid model_path
       get_options driver tr0
     = (tr1, Raise e))
  ∧ (∀ code,
       get_options "1PDEAAT" "psmc" model_path
         [("dh_heater",
           {| opt_type := "int"; opt_default := 0;
              opt_help := "Starting Detector Housing Heater state" |})] tr0
       = (tr1, SysExit code) →
       main xija_dvals xija_calc calc_off_nom_rolls T_msid model_path
         get_options driver tr0
       = (tr1, SysExit code)).
Proof.
  split.
  - intros e Hopts. unfold main. by rewrite (bind_raise _ _ _ _ _ Hopts).
  - intros code Hopts. unfold main, bind. by rewrite Hopts.
Qed.

(** X13: the handler of [main] changes what is printed, not the exit
    status: whatever way the driver ends and whatever the traceback flag
    is, the exit status of [main] is the one of the driver, 0 when it
    returns, 1 when it raises, and its own code when it exits. *)
Theorem main_exit_status args tr0 tr1 tr2 (r : result unit) :
  get_options "1PDEAAT" "psmc" model_path
    [("dh_heater",
      {| opt_type := "int"; opt_default := 0;
         opt_help := "Starting Detector Housing Heater state" |})] tr0
  = (tr1, Ok args) →
  driver psmc_check_ args tr1 = (tr2, r) →
  exit_status (snd (main_ tr0)) = exit_status r.
Proof.
  intros Hopts Hdrv. unfold main. rewrite (bind_ok _ _ _ _ _ Hopts).
  unfold try_except. rewrite Hdrv.
  destruct r as [[] | e | code]; [reflexivity | | reflexivity].
  by destruct (traceback args).
Qed.

(** X15: a run of the wrapper with a [state0] seeds the companion sensor
    itself, so the driver values of node [1pdeaat], which only the branch
    for a missing companion reading consults, play no part: the run is the
    same whatever the engine would give for them. *)
Theorem calc_model_wrapper_seeded_ignores_dvals
    (xija_dvals' :
       ModelSpec → float → float → string → data * data → list float)
    oflsdir ms states tstart tstop (s0 : gmap string value) tr :
  calc_model_wrapper_
    (psmc_check xija_dvals xija_calc calc_off_nom_rolls T_msid)
    oflsdir ms states tstart tstop (Some s0) tr
  = calc_model_wrapper_
      (psmc_check xija_dvals' xija_calc calc_off_nom_rolls T_msid)
      oflsdir ms states tstart tstop (Some s0) tr.
Proof.
  unfold calc_model_wrapper, bind, lift, getitem, ascii_read, log_info, emit,
    ret, raise, bind.
  simpl t_msid.
  destruct (s0 !! T_msid) as [[x | str] |]; simpl; [| reflexivity ..].
  destruct (fs !! path_join oflsdir "dahtbon_history.rdb")
    as [[msg | htrb] |]; [reflexivity | | reflexivity].
  simpl. destruct (rdb_col htrb "time" time); [| reflexivity ..].
  simpl. destruct (rdb_col htrb "dahtbon" dahtbon); reflexivity.
Qed.

End Properties.

(** * The properties on the concrete setting *)

Lemma pin1at_seed_offset_witness :
  has_columns ex_states calc_model_columns = true
  ∧ ∃ evs model,
      (∀ tr,
         calc_model_wrapper ex_date2secs ex_fs ex_psmc_check "ofls"
           "psmc_spec.json" ex_states 0 2000 (Some ex_state0) tr
         = (tr ++ evs, Ok model))
      ∧ comp model !! "1pdeaat" = Some (DFloat 45, DNone)
      ∧ comp model !! "pin1at" = Some (DFloat 35, DNone).
Proof.
  split; [reflexivity |].
  apply (proj1 (proj2 (pin1at_seed_offset ex_dvals ex_calc ex_rolls
                         ex_date2secs ex_fs "T_psmc" "ofls" "psmc_spec.json"
                         ex_states 0 2000 eq_refl))
           ex_state0 45%float ex_htrb);
    reflexivity.
Defined.


(** On the eight uneven samples, all in the window, the seed is the mean in
    the pairwise order of numpy, which is not the value that adding them
    one by one would give; on the single-precision column it is the mean in
    single precision. *)
Example set_initial_state_eight :
  outcome (set_initial_state ex_get_state0 ex_tlm_dtype ex_psmc_check ex_tlm8
             (Some ex_state_recent))
  = Ok (<["T_psmc" := VFloat 38.337499999999999]> ex_state_recent).
Proof. vm_compute. reflexivity. Qed.

Example set_initial_state_eight_float32 :
  outcome (set_initial_state ex_get_state0 ex_tlm_dtype32 ex_psmc_check
             ex_tlm8_float32 (Some ex_state_recent))
  = Ok (<["T_psmc" := VFloat (round_float32 38.3375)]> ex_state_recent).
Proof. vm_compute. reflexivity. Qed.

(** On the telemetry of the concrete setting the six samples lie in the
    window, and the seed is their mean. *)
Example set_initial_state_recent :
  option_map (λ state : gmap string value, state !! "T_psmc")
    (match outcome (set_initial_state ex_get_state0 ex_tlm_dtype ex_psmc_check ex_tlm
                      (Some ex_state_recent)) with
     | Ok state => Some state
     | _ => None
     end)
  = Some (Some (VFloat 42.5)).
Proof. vm_compute. reflexivity. Qed.

(** A seeded run of the wrapper on the concrete setting: the log line, the
    read of the heater history, the run of the engine. *)
Example calc_model_wrapper_seeded_events :
  events (calc_model_wrapper ex_date2secs ex_fs ex_psmc_check "ofls"
            "psmc_spec.json" ex_states 0 2000 (Some ex_state0))
  = [EvLogInfo
       "Reading file of dahtrb commands from file ofls/dahtbon_history.rdb";
     EvReadRdb "ofls/dahtbon_history.rdb";
     EvXijaCalc "psmc"].
Proof. reflexivity. Qed.

(** The validation run, without initial conditions. *)
Example calc_model_wrapper_unseeded_events :
  events (calc_model_wrapper ex_date2secs ∅ ex_psmc_check "ofls"
            "psmc_spec.json" ex_states 0 2000 None)
  = [EvXijaCalc "psmc"].
Proof. reflexivity. Qed.

Lemma missing_heater_history_is_fatal_witness :
  ex_fs !! heater_history_file "elsewhere" = None
  ∧ ∃ evs e,
      calc_model_wrapper ex_date2secs ex_fs ex_psmc_check "elsewhere"
        "psmc_spec.json" ex_states 0 2000 (Some ex_state0) []
      = ([] ++ evs, Raise e)
      ∧ (∀ x, ex_state0 !! "T_psmc" = Some (VFloat x) →
           evs = [EvLogInfo ("Reading file of dahtrb commands from file "
                             +:+ heater_history_file "elsewhere");
                  EvReadRdb (heater_history_file "elsewhere")]
           ∧ e = MissingHeaterHistoryError "elsewhere")
      ∧ List.filter is_xija_calc evs = [].
Proof.
  split; [reflexivity |].
  apply (missing_heater_history_is_fatal ex_date2secs ex_fs ex_psmc_check
           "elsewhere" "psmc_spec.json" ex_states 0 2000 ex_state0 []).
  reflexivity.
Defined.

(** C4, as claimed, fails: the state of the database started long before
    the first telemetry sample, no sample lies within 700 seconds of its
    start, and [set_initial_state] returns initial conditions, with NaN for
    the tracked sensor, where the claim has it raise
    InsufficientTelemetryError. *)
Lemma set_initial_state_empty_window_counterexample :
  index_neg (tlm_col ex_tlm "date") 5 = Ok 10032.75%float
  ∧ ex_get_state0 10032.75 (Some ex_state_old) "datestart" (-100)
    = Ok ex_state_old
  ∧ List.filter (λ row : tlm_row, within_700s 5000 (row "date")) ex_tlm = []
  ∧ set_initial_state ex_get_state0 ex_tlm_dtype ex_psmc_check ex_tlm (Some ex_state_old) []
    = ([EvGetState0 10032.75 "datestart" (-100)],
       Ok (<["T_psmc" := VFloat PrimFloat.nan]> ex_state_old)).
Proof. repeat split; vm_compute; reflexivity. Qed.

Lemma set_initial_state_empty_window_witness :
  List.filter (λ row : tlm_row, within_700s 5000 (row "date")) ex_tlm = []
  ∧ set_initial_state ex_get_state0 ex_tlm_dtype ex_psmc_check ex_tlm (Some ex_state_old)
      [EvLogInfo "start"]
    = ([EvLogInfo "start"] ++ [EvGetState0 10032.75 "datestart" (-100)],
       Ok (<["T_psmc" := VFloat PrimFloat.nan]> ex_state_old)).
Proof.
  split; [reflexivity |].
  apply (set_initial_state_empty_window ex_get_state0 ex_tlm_dtype ex_psmc_check ex_tlm
           (Some ex_state_old) 10032.75%float ex_state_old 5000%float);
    reflexivity.
Defined.

Lemma write_states_drops_T_pin1at_witness :
  write_states ex_psmc_check ex_options ex_states
  = [("tstart", [0; 1000]); ("tstop", [1000; 2000]);
     ("simpos", [-50000; 75000]); ("pitch", [150; 90]);
     ("ccd_count", [6; 6]); ("fep_count", [6; 6]); ("vid_board", [1; 1]);
     ("clocking", [1; 1]); ("T_psmc", [45; 45])]%float
  ∧ getcol (write_states ex_psmc_check ex_options ex_states) "pitch"
    = getcol ex_states "pitch".
Proof.
  split; [reflexivity |].
  apply (proj1 (proj2 (proj2 (write_states_drops_T_pin1at ex_psmc_check
                                ex_options ex_states)))).
  discriminate.
Defined.

Lemma main_failure_policy_witness :
  main ex_dvals ex_calc ex_rolls "T_psmc" "/psmc_check" ex_get_options
    ex_driver_fails []
  = ([] ++ [EvPrint "ERROR: no telemetry"], SysExit 1)
  ∧ exit_status
      (snd (main ex_dvals ex_calc ex_rolls "T_psmc" "/psmc_check"
              ex_get_options ex_driver_fails [])) = 1%Z.
Proof.
  apply (proj1 (proj1 (main_failure_policy ex_dvals ex_calc ex_rolls "T_psmc"
                         "/psmc_check" ex_get_options ex_driver_fails
                         ex_options [] [] eq_refl)
                  [] (RuntimeError "no telemetry") eq_refl)).
  reflexivity.
Defined.

Lemma calc_model_eclipse_false_witness :
  has_columns ex_states calc_model_columns = true
  ∧ ∃ model,
      outcome (calc_model ex_dvals ex_calc ex_rolls "psmc_spec.json"
                 ex_states 0 2000 DNone DNone DNone DNone DNone DNone)
      = Ok model
      ∧ comp model !! "eclipse" = Some (DBool false, DNone).
Proof.
  split; [reflexivity |].
  apply (proj2 (calc_model_eclipse_false ex_dvals ex_calc ex_rolls
                  "psmc_spec.json" ex_states 0 2000
                  DNone DNone DNone DNone DNone DNone)).
  reflexivity.
Defined.

Lemma set_initial_state_fifth_from_last_witness :
  (length ex_tlm_short < 5)%nat
  ∧ ∃ msg,
      set_initial_state ex_get_state0 ex_tlm_dtype ex_psmc_check ex_tlm_short
        (Some ex_state_recent) []
      = ([], Raise (IndexError msg)).
Proof.
  split; [vm_compute; lia |].
  apply (proj1 (set_initial_state_fifth_from_last ex_get_state0 ex_tlm_dtype ex_psmc_check
                  ex_tlm_short (Some ex_state_recent) [])).
  vm_compute. lia.
Defined.

Lemma heater_history_read_iff_state0_witness :
  ((∃ path,
      EvReadRdb path
      ∈ events (calc_model_wrapper ex_date2secs ex_fs ex_psmc_check "ofls"
                  "psmc_spec.json" ex_states 0 2000 (Some ex_state0)))
   ↔ Some ex_state0 ≠ None)
  ∧ (∀ tr,
       calc_model_wrapper ex_date2secs ex_fs ex_psmc_check "ofls"
         "psmc_spec.json" ex_states 0 2000 None tr
       = calc_model ex_dvals ex_calc ex_rolls "psmc_spec.json" ex_states
           0 2000 DNone DNone DNone DNone DNone DNone tr)
  ∧ (∀ fs' tr,
       calc_model_wrapper ex_date2secs fs' ex_psmc_check "ofls"
         "psmc_spec.json" ex_states 0 2000 None tr
       = calc_model_wrapper ex_date2secs ex_fs ex_psmc_check "ofls"
           "psmc_spec.json" ex_states 0 2000 None tr).
Proof.
  apply (heater_history_read_iff_state0 ex_dvals ex_calc ex_rolls
           ex_date2secs ex_fs "T_psmc" "ofls" "psmc_spec.json" ex_states
           0 2000 (Some ex_state0)).
  intros s0 [= <-]. exists 45%float. reflexivity.
Defined.

(** * The further properties on the concrete setting *)

Lemma calc_model_first_missing_column_witness :
  first_missing ex_states_no_pitch calc_model_columns = Some "pitch"
  ∧ ∀ tr,
      calc_model ex_dvals ex_calc ex_rolls "psmc_spec.json"
        ex_states_no_pitch 0 2000 (DFloat 45) DNone DNone DNone DNone DNone tr
      = (tr, Raise (ValueError "no field of name pitch")).
Proof.
  split; [reflexivity |].
  exact (calc_model_first_missing_column ex_dvals ex_calc ex_rolls
           "psmc_spec.json" ex_states_no_pitch 0 2000
           (DFloat 45) DNone DNone DNone DNone DNone).
Defined.

Lemma calc_model_explicit_pin1at_witness :
  DFloat 30 ≠ DNone
  ∧ ∀ tr' model,
      calc_model ex_dvals ex_calc ex_rolls "psmc_spec.json" ex_states 0 2000
        (DFloat 45) DNone (DFloat 30) DNone DNone DNone [] = (tr', Ok model) →
      comp model !! "pin1at" = Some (DFloat 30, DNone).
Proof.
  split; [discriminate |].
  apply (proj2 (calc_model_explicit_pin1at ex_dvals ex_calc ex_rolls
                  ex_dvals "psmc_spec.json" ex_states 0 2000
                  (DFloat 45) DNone (DFloat 30) DNone DNone DNone []
                  ltac:(discriminate))).
Defined.

Lemma calc_model_state_drivers_witness :
  calc_model ex_dvals ex_calc ex_rolls "psmc_spec.json" ex_states 0 2000
    (DFloat 45) DNone DNone DNone DNone DNone []
  = ([EvXijaCalc "psmc"], Ok ex_model)
  ∧ ∃ tstart tstop simpos,
      getcol ex_states "tstart" = Ok tstart
      ∧ getcol ex_states "tstop" = Ok tstop
      ∧ getcol ex_states "simpos" = Ok simpos
      ∧ comp ex_model !! "sim_z"
        = Some (DArray simpos, DArray2 [tstart; tstop])
      ∧ comp ex_model !! "roll"
        = Some (DArray (ex_rolls ex_states), DArray2 [tstart; tstop])
      ∧ (∀ n, n ∈ calc_model_loop_columns →
           ∃ col, getcol ex_states n = Ok col
                  ∧ comp ex_model !! n
                    = Some (DArray col, DArray2 [tstart; tstop])).
Proof.
  split; [reflexivity |].
  apply (calc_model_state_drivers ex_dvals ex_calc ex_rolls "psmc_spec.json"
           ex_states 0 2000 (DFloat 45) DNone DNone DNone DNone DNone
           [] [EvXijaCalc "psmc"] ex_model).
  reflexivity.
Defined.

Lemma calc_model_nodes_and_prediction_witness :
  calc_model ex_dvals ex_calc ex_rolls "psmc_spec.json" ex_states 0 2000
    (DFloat 45) DNone DNone DNone DNone DNone []
  = ([EvXijaCalc "psmc"], Ok ex_model)
  ∧ dom (comp ex_model) = list_to_set calc_model_nodes
  ∧ model_name _ _ ex_model = "psmc"
  ∧ model_start _ _ ex_model = 0%float
  ∧ model_stop _ _ ex_model = 2000%float
  ∧ model_spec_of _ _ ex_model = "psmc_spec.json"
  ∧ prediction ex_model
    = Some (ex_calc "psmc" "psmc_spec.json" 0 2000 (comp ex_model)).
Proof.
  split; [reflexivity |].
  apply (calc_model_nodes_and_prediction ex_dvals ex_calc ex_rolls
           "psmc_spec.json" ex_states 0 2000
           (DFloat 45) DNone DNone DNone DNone DNone
           [] [EvXijaCalc "psmc"] ex_model).
  reflexivity.
Defined.

Lemma calc_model_wrapper_bad_state0_witness :
  ex_state_bad_temp !! "T_psmc" = Some (VStr "hot")
  ∧ ∃ msg,
      calc_model_wrapper ex_date2secs ex_fs ex_psmc_check "ofls"
        "psmc_spec.json" ex_states 0 2000 (Some ex_state_bad_temp) []
      = ([], Raise (TypeError msg)).
Proof.
  split; [reflexivity |].
  apply (proj2 (calc_model_wrapper_bad_state0 ex_date2secs ex_fs
                  ex_psmc_check "ofls" "psmc_spec.json" ex_states 0 2000
                  ex_state_bad_temp []) "hot").
  reflexivity.
Defined.

Lemma calc_model_wrapper_heater_inputs_witness :
  calc_model_wrapper ex_date2secs ex_fs ex_psmc_check "ofls" "psmc_spec.json"
    ex_states 0 2000 (Some ex_state0) []
  = ([EvLogInfo
        "Reading file of dahtrb commands from file ofls/dahtbon_history.rdb";
      EvReadRdb "ofls/dahtbon_history.rdb"; EvXijaCalc "psmc"],
     Ok ex_seeded_model)
  ∧ ∃ htrb on times,
      ex_fs !! heater_history_file "ofls" = Some (RdbTable htrb)
      ∧ comp ex_seeded_model !! "dh_heater"
        = Some (DBoolArray on, DArray times)
      ∧ length on = length (rdb_rows htrb)
      ∧ length times = length (rdb_rows htrb)
      ∧ (∀ i row,
           rdb_rows htrb !! i = Some row →
           on !! i = Some (negb (dahtbon row =? 0)%Z)
           ∧ times !! i = Some (ex_date2secs (time row))).
Proof.
  split; [reflexivity |].
  apply (calc_model_wrapper_heater_inputs ex_dvals ex_calc ex_rolls
           ex_date2secs ex_fs "T_psmc" "ofls" "psmc_spec.json" ex_states
           0 2000 ex_state0 45%float
           []
           [EvLogInfo
              "Reading file of dahtrb commands from file ofls/dahtbon_history.rdb";
            EvReadRdb "ofls/dahtbon_history.rdb"; EvXijaCalc "psmc"]
           ex_seeded_model);
    reflexivity.
Defined.

Lemma calc_model_wrapper_reads_only_t_msid_witness :
  ex_state0 !! "T_psmc" = <["T_pin1at" := VFloat 20]> ex_state0 !! "T_psmc"
  ∧ calc_model_wrapper ex_date2secs ex_fs ex_psmc_check "ofls"
      "psmc_spec.json" ex_states 0 2000 (Some ex_state0) []
    = calc_model_wrapper ex_date2secs ex_fs ex_psmc_check "ofls"
        "psmc_spec.json" ex_states 0 2000
        (Some (<["T_pin1at" := VFloat 20]> ex_state0)) [].
Proof.
  split; [reflexivity |].
  apply (calc_model_wrapper_reads_only_t_msid ex_date2secs ex_fs
           ex_psmc_check "ofls" "psmc_spec.json" ex_states 0 2000
           ex_state0 (<["T_pin1at" := VFloat 20]> ex_state0) []).
  reflexivity.
Defined.

Lemma set_initial_state_then_wrapper_witness :
  set_initial_state ex_get_state0 ex_tlm_dtype ex_psmc_check ex_tlm
    (Some ex_state_recent) []
  = ([EvGetState0 10032.75 "datestart" (-100)],
     Ok (<["T_psmc" := VFloat 42.5]> ex_state_recent))
  ∧ ∃ x,
      <["T_psmc" := VFloat 42.5]> ex_state_recent !! "T_psmc"
      = Some (VFloat x)
      ∧ calc_model_wrapper ex_date2secs ex_fs ex_psmc_check "empty"
          "psmc_spec.json" ex_states 0 2000
          (Some (<["T_psmc" := VFloat 42.5]> ex_state_recent))
          [EvGetState0 10032.75 "datestart" (-100)]
        = ([EvGetState0 10032.75 "datestart" (-100)]
           ++ [EvLogInfo ("Reading file of dahtrb commands from file "
                          +:+ heater_history_file "empty");
               EvReadRdb (heater_history_file "empty")],
           Raise (InconsistentTableError "No data lines found")).
Proof.
  split; [vm_compute; reflexivity |].
  apply (set_initial_state_then_wrapper ex_dvals ex_calc ex_rolls
           ex_get_state0 ex_tlm_dtype ex_date2secs ex_fs "T_psmc" ex_tlm
           (Some ex_state_recent) "empty" "psmc_spec.json" ex_states 0 2000
           [] [EvGetState0 10032.75 "datestart" (-100)]
           (<["T_psmc" := VFloat 42.5]> ex_state_recent)).
  vm_compute. reflexivity.
Defined.

(** The same state with the heater history of the concrete setting: the run
    returns a model seeded with 42.5 and 32.5. *)
Example set_initial_state_then_wrapper_run :
  ∃ model,
    calc_model_wrapper ex_date2secs ex_fs ex_psmc_check "ofls"
      "psmc_spec.json" ex_states 0 2000
      (Some (<["T_psmc" := VFloat 42.5]> ex_state_recent)) []
    = ([EvLogInfo
          "Reading file of dahtrb commands from file ofls/dahtbon_history.rdb";
        EvReadRdb "ofls/dahtbon_history.rdb"; EvXijaCalc "psmc"],
       Ok model)
    ∧ comp model !! "1pdeaat" = Some (DFloat 42.5, DNone)
    ∧ comp model !! "pin1at" = Some (DFloat 32.5, DNone).
Proof.
  eexists. split; [vm_compute; reflexivity |].
  split; vm_compute; reflexivity.
Qed.

(** A heater history with no [dahtbon] column: the lookup of the column is
    what fails, after the read. *)
Example calc_model_wrapper_no_dahtbon_column :
  calc_model_wrapper ex_date2secs
    {[ "ofls/dahtbon_history.rdb" :=
         RdbTable {| rdb_colnames := ["time"]; rdb_rows := [] |} ]}
    ex_psmc_check "ofls" "psmc_spec.json" ex_states 0 2000
    (Some ex_state0) []
  = ([EvLogInfo
        "Reading file of dahtrb commands from file ofls/dahtbon_history.rdb";
      EvReadRdb "ofls/dahtbon_history.rdb"],
     Raise (KeyError "dahtbon")).
Proof. reflexivity. Qed.

Lemma set_initial_state_returns_iff_witness :
  ∃ tr' state,
    set_initial_state ex_get_state0 ex_tlm_dtype ex_psmc_check ex_tlm
      (Some ex_state_recent) [] = (tr', Ok state).
Proof.
  apply (proj2 (set_initial_state_returns_iff ex_get_state0 ex_tlm_dtype ex_psmc_check
                  ex_tlm (Some ex_state_recent) [])).
  split; [vm_compute; lia |].
  exists (mk_row 10032.75 41), ex_state_recent, 10050%float.
  repeat split; reflexivity.
Defined.

Lemma set_initial_state_bad_tstart_witness :
  ex_state_no_tstart !! "tstart" = None
  ∧ set_initial_state ex_get_state0 ex_tlm_dtype ex_psmc_check ex_tlm
      (Some ex_state_no_tstart) []
    = ([] ++ [EvGetState0 10032.75 "datestart" (-100)],
       Raise (KeyError "tstart")).
Proof.
  split; [reflexivity |].
  apply (proj1 (set_initial_state_bad_tstart ex_get_state0 ex_tlm_dtype ex_psmc_check
                  ex_tlm (Some ex_state_no_tstart) 10032.75%float
                  ex_state_no_tstart [] eq_refl eq_refl)).
  reflexivity.
Defined.

Lemma set_initial_state_older_samples_witness :
  forallb (λ row : tlm_row, negb (within_700s 10050 (row "date")))
    ex_tlm_older = true
  ∧ set_initial_state ex_get_state0 ex_tlm_dtype ex_psmc_check (ex_tlm_older ++ ex_tlm)
      (Some ex_state_recent) []
    = set_initial_state ex_get_state0 ex_tlm_dtype ex_psmc_check ex_tlm
        (Some ex_state_recent) [].
Proof.
  split; [reflexivity |].
  apply (set_initial_state_older_samples ex_get_state0 ex_tlm_dtype ex_psmc_check
           ex_tlm_older ex_tlm (Some ex_state_recent) 10032.75%float
           ex_state_recent 10050%float []);
    reflexivity.
Defined.

Lemma main_options_failure_witness :
  main ex_dvals ex_calc ex_rolls "T_psmc" "/psmc_check" ex_get_options_fails
    ex_driver_fails []
  = ([], SysExit 2).
Proof.
  apply (proj2 (main_options_failure ex_dvals ex_calc ex_rolls "T_psmc"
                  "/psmc_check" ex_get_options_fails ex_driver_fails [] [])
           2%Z).
  reflexivity.
Defined.

Lemma main_exit_status_witness :
  exit_status
    (snd (main ex_dvals ex_calc ex_rolls "T_psmc" "/psmc_check"
            ex_get_options ex_driver_fails []))
  = exit_status (Raise (A := unit) (RuntimeError "no telemetry")).
Proof.
  apply (main_exit_status ex_dvals ex_calc ex_rolls "T_psmc" "/psmc_check"
           ex_get_options ex_driver_fails ex_options [] [] []);
    reflexivity.
Defined.

Lemma main_driver_exit_witness :
  main ex_dvals ex_calc ex_rolls "T_psmc" "/psmc_check" ex_get_options
    ex_driver_exits []
  = ([], SysExit 3).
Proof.
  apply (main_driver_exit ex_dvals ex_calc ex_rolls "T_psmc" "/psmc_check"
           ex_get_options ex_driver_exits ex_options [] []);
    reflexivity.
Defined.
